(** * ToolShare: reservation ledger, overlap checker and trust score

    A shallow embedding of the core of the ToolShare application:
    the PL/pgSQL functions installed by [fix_overlap.py] and
    [migrate_db.py], and the routes of [main.py] that write to the
    reservation and rating tables.

    Tables are finite maps from the surrogate integer key to a row.
    Instants (TIMESTAMP) are integers: the order of instants is all the
    SQL predicates look at.  A route takes the session store and the
    request, and returns its response together with the database after
    the commit or the rollback. *)

From Stdlib Require Import ZArith QArith String Ascii List Bool Lia.
From stdpp Require Import gmap strings pretty sorting.

Local Open Scope string_scope.
Local Open Scope Z_scope.

(** ** Python string helpers used by the routes *)

Module PyStr.

(** [c.lower()] on one ASCII character. *)
Definition lower_ascii (c : ascii) : ascii :=
  let n := nat_of_ascii c in
  if ((65 <=? n) && (n <=? 90))%nat then ascii_of_nat (n + 32) else c.

(** [s.lower()], on the ASCII letters the error messages are made of. *)
Fixpoint lower (s : string) : string :=
  match s with
  | EmptyString => EmptyString
  | String c s' => String (lower_ascii c) (lower s')
  end.

(** [sub in s]. *)
Definition contains (sub s : string) : bool :=
  match String.index 0 sub s with
  | Some _ => true
  | None => false
  end.

End PyStr.

(** ** Data model: the four tables *)

Record users_row := {
  username : string;
  email : string;
  password_hash : string;
  role : string;
  trust_score : Q
}.

Record tools_row := {
  owner_id : Z;
  name : string;
  category : string;
  tool_status : string
}.

Record reservations_row := {
  tool_id : Z;
  borrower_id : Z;
  start_date : Z;
  end_date : Z;
  status : string;
  last_updated : Z
}.

Record ratings_row := {
  reservation_id : Z;
  rater_id : Z;
  rated_user_id : Z;
  score : Z;
  comment : string
}.

(** The database: the tables and the two sequences that number new
    reservation and rating rows.  A value drawn from a sequence is not
    given back by a rollback. *)
Record database := {
  users : gmap Z users_row;
  tools : gmap Z tools_row;
  reservations : gmap Z reservations_row;
  ratings : gmap Z ratings_row;
  reservation_seq : Z;
  rating_seq : Z
}.

Definition set_reservations (rs : gmap Z reservations_row) (db : database) : database :=
  {| users := users db; tools := tools db; reservations := rs;
     ratings := ratings db; reservation_seq := reservation_seq db;
     rating_seq := rating_seq db |}.

Definition set_users (us : gmap Z users_row) (db : database) : database :=
  {| users := us; tools := tools db; reservations := reservations db;
     ratings := ratings db; reservation_seq := reservation_seq db;
     rating_seq := rating_seq db |}.

Definition set_ratings (rt : gmap Z ratings_row) (db : database) : database :=
  {| users := users db; tools := tools db; reservations := reservations db;
     ratings := rt; reservation_seq := reservation_seq db;
     rating_seq := rating_seq db |}.

(** [nextval] of the two sequences. *)
Definition nextval_reservation (db : database) : Z * database :=
  (reservation_seq db,
   {| users := users db; tools := tools db; reservations := reservations db;
      ratings := ratings db; reservation_seq := reservation_seq db + 1;
      rating_seq := rating_seq db |}).

Definition nextval_rating (db : database) : Z * database :=
  (rating_seq db,
   {| users := users db; tools := tools db; reservations := reservations db;
      ratings := ratings db; reservation_seq := reservation_seq db;
      rating_seq := rating_seq db + 1 |}).

(** ** Sessions ([user_sessions] and [get_current_user] of main.py) *)

Record session_user := {
  s_user_id : Z;
  s_username : string;
  s_role : string;
  s_trust_score : Q
}.

(** The part of a request the routes read: the [session_id] cookie. *)
Record request := { cookie_session_id : option string }.

Definition get_current_user (user_sessions : gmap string session_user)
    (req : request) : option session_user :=
  match cookie_session_id req with
  | Some session_id =>
      if String.eqb session_id "" then None else user_sessions !! session_id
  | None => None
  end.

(** ** Interval overlap *)

(** [status IN ('pending', 'approved')]. *)
Definition is_active (st : string) : bool :=
  String.eqb st "pending" || String.eqb st "approved".

(** The predicate of fix_overlap.py, in both of its functions:
    [start_date < p_end_date AND end_date > p_start_date]. *)
Definition overlaps (existingStart existingEnd candidateStart candidateEnd : Z) : bool :=
  (existingStart <? candidateEnd) && (existingEnd >? candidateStart).

(** The predicate of migrate_db.py:
    [start_date <= p_end_date AND end_date >= p_start_date]. *)
Definition overlaps_migrate (existingStart existingEnd candidateStart candidateEnd : Z) : bool :=
  (existingStart <=? candidateEnd) && (existingEnd >=? candidateStart).

(** [check_tool_availability] as fix_overlap.py re-creates it. *)
Definition check_tool_availability (rs : gmap Z reservations_row)
    (p_tool_id p_start_date p_end_date : Z) : bool :=
  let v_conflict_count :=
    size (filter (fun kv : Z * reservations_row =>
            (tool_id kv.2 =? p_tool_id)
            && is_active (status kv.2)
            && overlaps (start_date kv.2) (end_date kv.2) p_start_date p_end_date
            = true) rs) in
  (v_conflict_count =? 0)%nat.

(** [check_tool_availability] as migrate_db.py creates it. *)
Definition check_tool_availability_migrate (rs : gmap Z reservations_row)
    (p_tool_id p_start_date p_end_date : Z) : bool :=
  let v_conflict_count :=
    size (filter (fun kv : Z * reservations_row =>
            (tool_id kv.2 =? p_tool_id)
            && is_active (status kv.2)
            && overlaps_migrate (start_date kv.2) (end_date kv.2) p_start_date p_end_date
            = true) rs) in
  (v_conflict_count =? 0)%nat.

(** ** The double-booking trigger (fix_overlap.py) *)

Inductive trigger_result :=
  | RaiseException (message : string)
  | ReturnNew (new : reservations_row).

(** [v_tool_owner_id = NEW.borrower_id], where the left side is NULL
    when the tool row is missing; NULL is not true. *)
Definition sql_eq_nullable (a : option Z) (b : Z) : bool :=
  match a with
  | Some x => x =? b
  | None => false
  end.

(** [COALESCE(x, d)]. *)
Definition coalesce (x : option Z) (d : Z) : Z :=
  match x with
  | Some v => v
  | None => d
  end.

Definition fn_prevent_double_booking (db : database)
    (new_reservation_id : option Z) (NEW : reservations_row) : trigger_result :=
  let v_tool_owner_id := owner_id <$> tools db !! tool_id NEW in
  if sql_eq_nullable v_tool_owner_id (borrower_id NEW) then
    RaiseException "You cannot reserve your own tool."
  else
    let v_conflict_count :=
      size (filter (fun kv : Z * reservations_row =>
              (tool_id kv.2 =? tool_id NEW)
              && negb (kv.1 =? coalesce new_reservation_id 0)
              && is_active (status kv.2)
              && overlaps (start_date kv.2) (end_date kv.2)
                          (start_date NEW) (end_date NEW)
              = true) (reservations db)) in
    if (0 <? v_conflict_count)%nat then
      RaiseException "This tool is already reserved for the selected dates."
    else
      ReturnNew NEW.

(** ** Statements on the reservation table *)

Inductive dml_event := INSERT | UPDATE | DELETE.

Definition dml_event_eqb (a b : dml_event) : bool :=
  match a, b with
  | INSERT, INSERT | UPDATE, UPDATE | DELETE, DELETE => true
  | _, _ => false
  end.

(** Modelled from the spec: the [CREATE TRIGGER] statement that binds
    [fn_prevent_double_booking] to the reservation table is not among
    the sources.  The Reservation Ledger "enforces overlap-freedom and
    self-booking prohibition on every insert/update", so the trigger is
    a row trigger that runs before an insert and before an update. *)
Definition trg_prevent_double_booking_events : list dml_event := [INSERT; UPDATE].

Definition trigger_fires (ev : dml_event) : bool :=
  existsb (dml_event_eqb ev) trg_prevent_double_booking_events.

Definition run_trigger (ev : dml_event) (db : database)
    (new_reservation_id : option Z) (NEW : reservations_row) : trigger_result :=
  if trigger_fires ev then fn_prevent_double_booking db new_reservation_id NEW
  else ReturnNew NEW.

(** [INSERT INTO reservations (...) VALUES (...)]: the key comes from the
    sequence, the trigger sees the new row, and the row is stored when
    the trigger returns it.  The left result is the raised error with the
    database after the rollback. *)
Definition insert_reservation (db : database) (row : reservations_row)
    : (string * database) + database :=
  let '(new_id, db1) := nextval_reservation db in
  match run_trigger INSERT db1 (Some new_id) row with
  | RaiseException msg => inl (msg, db1)
  | ReturnNew new => inr (set_reservations (<[new_id := new]> (reservations db1)) db1)
  end.

(** The [WHERE] clause of the update in [update_reservation_status]:
    [EXISTS (SELECT 1 FROM tools t WHERE t.tool_id = r.tool_id
             AND (t.owner_id = :user_id OR :is_admin = true))]. *)
Definition may_update (db : database) (r : reservations_row)
    (user_id : Z) (is_admin : bool) : bool :=
  match tools db !! tool_id r with
  | Some t => (owner_id t =? user_id) || is_admin
  | None => false
  end.

(** [UPDATE reservations r SET status = :status, last_updated =
    CURRENT_TIMESTAMP WHERE r.reservation_id = :reservation_id AND ...]:
    the key selects at most one row. *)
Definition update_reservation (db : database) (reservation_id : Z)
    (new_status : string) (user_id : Z) (is_admin : bool) (now : Z)
    : string + database :=
  match reservations db !! reservation_id with
  | Some r =>
      if may_update db r user_id is_admin then
        let NEW := {| tool_id := tool_id r; borrower_id := borrower_id r;
                      start_date := start_date r; end_date := end_date r;
                      status := new_status; last_updated := now |} in
        match run_trigger UPDATE db (Some reservation_id) NEW with
        | RaiseException msg => inl msg
        | ReturnNew new =>
            inr (set_reservations (<[reservation_id := new]> (reservations db)) db)
        end
      else inr db
  | None => inr db
  end.

(** [DELETE FROM reservations WHERE reservation_id = :reservation_id
    AND (borrower_id = :user_id OR :is_admin = true)].  Only the
    reservation table is written. *)
Definition delete_reservation_row (db : database) (reservation_id : Z)
    (user_id : Z) (is_admin : bool) : database :=
  match reservations db !! reservation_id with
  | Some r =>
      if (borrower_id r =? user_id) || is_admin then
        set_reservations (delete reservation_id (reservations db)) db
      else db
  | None => db
  end.

(** ** The reservation routes of main.py *)

(** What a route answers.  Each constructor stands for one redirect of
    the source; the error constructors carry the names the specification
    gives them. *)
Inductive response :=
  | LoginRequired                  (* /?error=...login first *)
  | ReservationCreated             (* /dashboard?message=...created *)
  | BookingConflictError           (* "already reserved" in the error *)
  | SelfBookingError               (* "your own tool" in the error *)
  | ReservationFailed (error_msg : string)
  | StatusUpdated (new_status : string)
  | UpdateFailed (error_msg : string)
  | ReservationCancelled
  | RatingSubmitted
  | InvalidScoreError              (* "chk_rating_score" in the error *)
  | RatingFailed (error_msg : string).

Definition is_admin_role (user : session_user) : bool :=
  String.eqb (s_role user) "admin".

Definition add_reservation (user_sessions : gmap string session_user)
    (req : request) (tool_id start_date end_date : Z) (now : Z)
    (db : database) : response * database :=
  match get_current_user user_sessions req with
  | None => (LoginRequired, db)
  | Some user =>
      match insert_reservation db
              {| tool_id := tool_id; borrower_id := s_user_id user;
                 start_date := start_date; end_date := end_date;
                 status := "pending"; last_updated := now |} with
      | inr db' => (ReservationCreated, db')
      | inl (error_msg, db') =>
          if PyStr.contains "already reserved" (PyStr.lower error_msg) then
            (BookingConflictError, db')
          else if PyStr.contains "your own tool" (PyStr.lower error_msg) then
            (SelfBookingError, db')
          else (ReservationFailed error_msg, db')
      end
  end.

Definition update_reservation_status (user_sessions : gmap string session_user)
    (req : request) (reservation_id : Z) (status : string) (now : Z)
    (db : database) : response * database :=
  match get_current_user user_sessions req with
  | None => (LoginRequired, db)
  | Some user =>
      match update_reservation db reservation_id status
              (s_user_id user) (is_admin_role user) now with
      | inr db' => (StatusUpdated status, db')
      | inl error_msg => (UpdateFailed error_msg, db)
      end
  end.

Definition delete_reservation (user_sessions : gmap string session_user)
    (req : request) (reservation_id : Z)
    (db : database) : response * database :=
  match get_current_user user_sessions req with
  | None => (LoginRequired, db)
  | Some user =>
      (ReservationCancelled,
       delete_reservation_row db reservation_id (s_user_id user) (is_admin_role user))
  end.

(** ** Ratings and the trust score *)

(** Modelled from the spec: the table constraint [chk_rating_score],
    which main.py names in its error handling but which is declared
    outside the sources.  "Invariant: score must lie in [1,5] (hard
    constraint, rejected otherwise)". *)
Definition chk_rating_score (row : ratings_row) : bool :=
  (1 <=? score row) && (score row <=? 5).

(** The error PostgreSQL raises for a violated check constraint (with
    the quotation marks around the two names left out). *)
Definition check_violation_message : string :=
  "new row for relation ratings violates check constraint chk_rating_score".

(** All scores a user has received: [SELECT score FROM ratings WHERE
    rated_user_id = user_id]. *)
Definition scores_received (rt : gmap Z ratings_row) (user_id : Z) : list Z :=
  score <$> filter (fun r : ratings_row => rated_user_id r = user_id)
                   (map_to_list rt).*2.

Definition sum_scores (scores : list Z) : Z := fold_right Z.add 0 scores.

(** The arithmetic mean, as an exact rational in lowest terms. *)
Definition mean (scores : list Z) : Q :=
  Qred (inject_Z (sum_scores scores) / inject_Z (Z.of_nat (length scores))).

Definition set_trust_score (q : Q) (u : users_row) : users_row :=
  {| username := username u; email := email u;
     password_hash := password_hash u; role := role u; trust_score := q |}.

(** Modelled from the spec: the function of the trigger
    [trg_update_user_trust_score], which the docstring of [add_rating]
    names but which is declared outside the sources.  After a rating row
    is inserted it "recomputes the rated user's trust score as the
    arithmetic mean of all scores ever received by that user". *)
Definition fn_update_user_trust_score (db : database) (NEW : ratings_row) : database :=
  let v_avg := mean (scores_received (ratings db) (rated_user_id NEW)) in
  set_users (alter (set_trust_score v_avg) (rated_user_id NEW) (users db)) db.

(** Modelled from the spec: the column types of the rating table, which
    is declared outside the sources.  The score is an "integer score"
    and the three references are the "surrogate integer identifiers" of
    the other tables; an INTEGER of PostgreSQL has 32 bits, and a value
    that does not fit is refused when it is assigned to the column,
    before any constraint is checked. *)
Definition fits_integer (z : Z) : bool :=
  (-2147483648 <=? z) && (z <=? 2147483647).

Definition ratings_row_fits (row : ratings_row) : bool :=
  fits_integer (reservation_id row) && fits_integer (rater_id row)
  && fits_integer (rated_user_id row) && fits_integer (score row).

(** The error PostgreSQL raises for a value that does not fit. *)
Definition integer_out_of_range_message : string := "integer out of range".

(** [INSERT INTO ratings (...) VALUES (...)]. *)
Definition insert_rating (db : database) (row : ratings_row)
    : (string * database) + database :=
  let '(new_id, db1) := nextval_rating db in
  if negb (ratings_row_fits row) then
    inl (integer_out_of_range_message, db1)
  else if chk_rating_score row then
    inr (fn_update_user_trust_score
           (set_ratings (<[new_id := row]> (ratings db1)) db1) row)
  else inl (check_violation_message, db1).

Definition add_rating (user_sessions : gmap string session_user)
    (req : request) (reservation_id rated_user_id score : Z) (comment : string)
    (db : database) : response * database :=
  match get_current_user user_sessions req with
  | None => (LoginRequired, db)
  | Some user =>
      match insert_rating db
              {| reservation_id := reservation_id; rater_id := s_user_id user;
                 rated_user_id := rated_user_id; score := score;
                 comment := comment |} with
      | inr db' => (RatingSubmitted, db')
      | inl (error_msg, db') =>
          if PyStr.contains "chk_rating_score" (PyStr.lower error_msg) then
            (InvalidScoreError, db')
          else (RatingFailed error_msg, db')
      end
  end.

(** ** Login (main.py) *)

Inductive login_response :=
  | RedirectDashboard (set_cookie_session_id : string)
  | InvalidUsernameOrPassword.

(** [SELECT user_id, username, role, trust_score FROM users WHERE
    username = :username], then [fetchone()]. *)
Definition select_user_by_username (db : database) (p_username : string)
    : option (Z * users_row) :=
  List.find (fun kv : Z * users_row => String.eqb (username kv.2) p_username)
            (map_to_list (users db)).

(** [float(result[3]) if result[3] else 0.0]. *)
Definition session_trust_score (q : Q) : Q :=
  if Qeq_bool q 0 then 0%Q else q.

(** The dictionary [login] stores for the row it has fetched. *)
Definition session_of (result : Z * users_row) : session_user :=
  {| s_user_id := result.1; s_username := username result.2;
     s_role := role result.2;
     s_trust_score := session_trust_score (trust_score result.2) |}.

(** [uuid4] is the value [uuid.uuid4()] returns in this call. *)
Definition login (user_sessions : gmap string session_user) (db : database)
    (p_username password : string) (uuid4 : string)
    : login_response * gmap string session_user :=
  match select_user_by_username db p_username with
  | Some result =>
      let session_id := uuid4 in
      (RedirectDashboard session_id, <[session_id := session_of result]> user_sessions)
  | None => (InvalidUsernameOrPassword, user_sessions)
  end.

(** ** Reachable states of the ledger *)

(** A call of one of the three core operations, with the session store
    and the request it is made with. *)
Inductive core_op :=
  | CreateReservation (user_sessions : gmap string session_user) (req : request)
      (tool_id start_date end_date now : Z)
  | UpdateReservationStatus (user_sessions : gmap string session_user) (req : request)
      (reservation_id : Z) (new_status : string) (now : Z)
  | DeleteReservation (user_sessions : gmap string session_user) (req : request)
      (reservation_id : Z).

Definition run_core_op (op : core_op) (db : database) : response * database :=
  match op with
  | CreateReservation s req t a b now => add_reservation s req t a b now db
  | UpdateReservationStatus s req i st now => update_reservation_status s req i st now db
  | DeleteReservation s req i => delete_reservation s req i db
  end.

(** A state is reachable when core operations lead to it from a
    database whose reservation table is empty; in between, the other
    routes may write to the user, tool and rating tables. *)
Inductive reachable : database -> Prop :=
  | reachable_init db :
      reservations db = ∅ -> reachable db
  | reachable_step db op :
      reachable db -> reachable (snd (run_core_op op db))
  | reachable_other db db' :
      (* a route that writes to the other tables only *)
      reachable db ->
      reservations db' = reservations db ->
      reservation_seq db' = reservation_seq db ->
      reachable db'.

(** The invariant of the ledger: two different active reservations of
    one tool do not overlap. *)
Definition no_double_booking (rs : gmap Z reservations_row) : Prop :=
  forall i j r1 r2,
    rs !! i = Some r1 -> rs !! j = Some r2 -> i <> j ->
    tool_id r1 = tool_id r2 ->
    is_active (status r1) = true -> is_active (status r2) = true ->
    overlaps (start_date r1) (end_date r1) (start_date r2) (end_date r2) = false.

(** Keys at or above the sequence are unused. *)
Definition seq_fresh (db : database) : Prop :=
  forall i, reservation_seq db <= i -> reservations db !! i = None.

(** An active reservation of tool [t] overlaps the candidate [a, b). *)
Definition has_conflict (rs : gmap Z reservations_row) (t a b : Z) : Prop :=
  exists i r, rs !! i = Some r /\ tool_id r = t /\ is_active (status r) = true
              /\ start_date r < b /\ end_date r > a.

(** A row other than [id] that the trigger counts as a conflict with
    [NEW]. *)
Definition trigger_conflict (db : database) (id : Z) (NEW : reservations_row) : Prop :=
  exists i r, reservations db !! i = Some r /\ i <> id
              /\ tool_id r = tool_id NEW /\ is_active (status r) = true
              /\ start_date r < end_date NEW /\ end_date r > start_date NEW.

(** The row [add_reservation] sends to the table. *)
Definition new_row (user : session_user) (t a b now : Z) : reservations_row :=
  {| tool_id := t; borrower_id := s_user_id user; start_date := a;
     end_date := b; status := "pending"; last_updated := now |}.

(** The trigger's owner test for a tool and a session user. *)
Definition owns (db : database) (t : Z) (user : session_user) : bool :=
  sql_eq_nullable (owner_id <$> tools db !! t) (s_user_id user).

(** The row [update_reservation_status] writes over [r]. *)
Definition updated_row (r : reservations_row) (st : string) (now : Z) : reservations_row :=
  {| tool_id := tool_id r; borrower_id := borrower_id r;
     start_date := start_date r; end_date := end_date r;
     status := st; last_updated := now |}.

(** What the ledger keeps true. *)
Definition ledger_ok (db : database) : Prop :=
  seq_fresh db /\ no_double_booking (reservations db).

(** A decidable form of [seq_fresh]. *)
Definition seq_freshb (db : database) : bool :=
  bool_decide (map_Forall (fun i _ => i < reservation_seq db) (reservations db)).

(** Every user who has been rated carries the mean of the scores
    received as trust score. *)
Definition trust_consistent (db : database) : Prop :=
  forall uid u,
    users db !! uid = Some u ->
    scores_received (ratings db) uid <> [] ->
    trust_score u = mean (scores_received (ratings db) uid).

(** ** Example states *)

Module Ex.

Definition alice : users_row :=
  {| username := "alice"; email := "alice@example.org";
     password_hash := "secret"; role := "user"; trust_score := 0 |}.

Definition bob : users_row :=
  {| username := "bob"; email := "bob@example.org";
     password_hash := "hunter2"; role := "user"; trust_score := 0 |}.

Definition drill : tools_row :=
  {| owner_id := 1; name := "drill"; category := "power tools";
     tool_status := "available" |}.

(** Alice (user 1) owns the drill (tool 1); Bob is user 2. *)
Definition db0 : database :=
  {| users := {[ 1 := alice; 2 := bob ]};
     tools := {[ 1 := drill ]};
     reservations := ∅;
     ratings := ∅;
     reservation_seq := 1;
     rating_seq := 1 |}.

Definition sessions : gmap string session_user :=
  {[ "sid-alice" := {| s_user_id := 1; s_username := "alice";
                       s_role := "user"; s_trust_score := 0 |};
     "sid-bob" := {| s_user_id := 2; s_username := "bob";
                     s_role := "user"; s_trust_score := 0 |} ]}.

Definition as_alice : request := {| cookie_session_id := Some "sid-alice" |}.
Definition as_bob : request := {| cookie_session_id := Some "sid-bob" |}.

(** Bob holds the drill for [1, 5). *)
Definition db_A : database := snd (add_reservation sessions as_bob 1 1 5 100 db0).

(** Bob holds the drill for [1, 5) and for [5, 10). *)
Definition db_AB : database := snd (add_reservation sessions as_bob 1 5 10 101 db_A).

(** Bob holds the drill for [5, 10) only. *)
Definition db_B : database := snd (add_reservation sessions as_bob 1 5 10 100 db0).

(** Bob rates Alice 5, 4 and 3, and then 2. *)
Definition db_r1 : database := snd (add_rating sessions as_bob 7 1 5 "great" db0).
Definition db_r2 : database := snd (add_rating sessions as_bob 8 1 4 "good" db_r1).
Definition db_r3 : database := snd (add_rating sessions as_bob 9 1 3 "fine" db_r2).
Definition db_r4 : database := snd (add_rating sessions as_bob 10 1 2 "late" db_r3).

Definition bob_session : session_user :=
  {| s_user_id := 2; s_username := "bob"; s_role := "user"; s_trust_score := 0 |}.

End Ex.

(** * The other routes and queries *)

(** ** Sessions: [require_login] and [logout] (main.py) *)

Inductive http_exception :=
  | HTTPException (status_code : Z) (detail : string).

(** [require_login]: the user of the session, or the 401 exception. *)
Definition require_login (user_sessions : gmap string session_user)
    (req : request) : http_exception + session_user :=
  match get_current_user user_sessions req with
  | Some user => inr user
  | None => inl (HTTPException 401 "Please login first")
  end.

(** [logout]: the session store after the call; the answer is always
    the redirect to the index page with the cookie deleted. *)
Definition logout (user_sessions : gmap string session_user)
    (req : request) : gmap string session_user :=
  match cookie_session_id req with
  | Some session_id =>
      if String.eqb session_id "" then user_sessions
      else
        match user_sessions !! session_id with
        | Some _ => delete session_id user_sessions
        | None => user_sessions
        end
  | None => user_sessions
  end.

(** ** Registration (main.py) *)

Inductive register_response :=
  | RegistrationSuccessful        (* /?message=Registration successful *)
  | UsernameOrEmailExists         (* "unique" in the error *)
  | RegistrationFailed (error_msg : string).

(** Modelled from the spec: the uniqueness constraints of the user
    table, which are declared outside the sources: "username (unique),
    email (unique)", and the key is the primary key. *)
Definition users_unique_violation (db : database) (new_user_id : Z)
    (p_username p_email : string) : bool :=
  bool_decide (is_Some (users db !! new_user_id))
  || existsb (fun kv : Z * users_row =>
                String.eqb (username kv.2) p_username
                || String.eqb (email kv.2) p_email)
             (map_to_list (users db)).

(** The error PostgreSQL raises for a violated uniqueness constraint. *)
Definition unique_violation_message : string :=
  "duplicate key value violates unique constraint".

(** [INSERT INTO users (username, email, password_hash, role) VALUES
    (:username, :email, :password, 'user')].  [new_user_id] and
    [default_trust_score] are what the table's defaults give the two
    columns the statement leaves out. *)
Definition insert_user (db : database) (new_user_id : Z) (default_trust_score : Q)
    (p_username p_email p_password : string) : string + database :=
  if users_unique_violation db new_user_id p_username p_email then
    inl unique_violation_message
  else
    inr (set_users
           (<[new_user_id := {| username := p_username; email := p_email;
                                password_hash := p_password; role := "user";
                                trust_score := default_trust_score |}]> (users db))
           db).

Definition register (p_username p_email p_password : string)
    (new_user_id : Z) (default_trust_score : Q)
    (db : database) : register_response * database :=
  match insert_user db new_user_id default_trust_score
          p_username p_email p_password with
  | inr db' => (RegistrationSuccessful, db')
  | inl error_msg =>
      if PyStr.contains "unique" (PyStr.lower error_msg) then
        (UsernameOrEmailExists, db)
      else (RegistrationFailed error_msg, db)
  end.

(** ** The tool routes (main.py) *)

Definition set_tools (ts : gmap Z tools_row) (db : database) : database :=
  {| users := users db; tools := ts; reservations := reservations db;
     ratings := ratings db; reservation_seq := reservation_seq db;
     rating_seq := rating_seq db |}.

Inductive tool_response :=
  | ToolLoginRequired             (* /?error=...login first *)
  | ToolAdded                     (* /dashboard?message=Tool added *)
  | ToolAddFailed (error_msg : string)
  | ToolNotFound                  (* /dashboard?error=Tool not found *)
  | ToolNotYours                  (* ...only delete your own tools *)
  | ToolDeleted
  | ToolUpdated.

(** [add_tool]: [INSERT INTO tools (owner_id, name, description,
    category)].  [new_tool_id] is the value of the sequence [tool_seq]
    and [default_status] the default of the status column; a key that
    is taken violates the primary key.  The description goes to a column
    that [tools_row] does not carry. *)
Definition add_tool (user_sessions : gmap string session_user) (req : request)
    (p_name description p_category : string)
    (new_tool_id : Z) (default_status : string)
    (db : database) : tool_response * database :=
  match get_current_user user_sessions req with
  | None => (ToolLoginRequired, db)
  | Some user =>
      match tools db !! new_tool_id with
      | Some _ => (ToolAddFailed unique_violation_message, db)
      | None =>
          (ToolAdded,
           set_tools (<[new_tool_id := {| owner_id := s_user_id user;
                                          name := p_name;
                                          category := p_category;
                                          tool_status := default_status |}]>
                        (tools db)) db)
      end
  end.

(** [delete_tool]: the ownership test is made in Python, on the row the
    first query fetches; then [DELETE FROM tools WHERE tool_id =
    :tool_id].  Only the tool table is written. *)
Definition delete_tool (user_sessions : gmap string session_user) (req : request)
    (p_tool_id : Z) (db : database) : tool_response * database :=
  match get_current_user user_sessions req with
  | None => (ToolLoginRequired, db)
  | Some user =>
      match owner_id <$> tools db !! p_tool_id with
      | None => (ToolNotFound, db)
      | Some result =>
          if negb (result =? s_user_id user) && negb (is_admin_role user) then
            (ToolNotYours, db)
          else (ToolDeleted, set_tools (delete p_tool_id (tools db)) db)
      end
  end.

(** [update_tool]: [UPDATE tools SET name = :name, description =
    :description, category = :category, status = :status WHERE tool_id =
    :tool_id AND (owner_id = :owner_id OR :is_admin = true)]. *)
Definition update_tool (user_sessions : gmap string session_user) (req : request)
    (p_tool_id : Z) (p_name description p_category p_status : string)
    (db : database) : tool_response * database :=
  match get_current_user user_sessions req with
  | None => (ToolLoginRequired, db)
  | Some user =>
      match tools db !! p_tool_id with
      | Some t =>
          if (owner_id t =? s_user_id user) || is_admin_role user then
            (ToolUpdated,
             set_tools (<[p_tool_id := {| owner_id := owner_id t; name := p_name;
                                          category := p_category;
                                          tool_status := p_status |}]>
                          (tools db)) db)
          else (ToolUpdated, db)
      | None => (ToolUpdated, db)
      end
  end.

(** ** The admin route (main.py) *)

Inductive admin_response :=
  | AdminAccessRequired           (* /dashboard?error=Admin access required *)
  | CannotDeleteYourself
  | UserDeleted.

(** [admin_delete_user]: [DELETE FROM users WHERE user_id = :user_id]
    behind the two tests made in Python.  Only the user table is
    written. *)
Definition admin_delete_user (user_sessions : gmap string session_user)
    (req : request) (p_user_id : Z) (db : database) : admin_response * database :=
  match get_current_user user_sessions req with
  | None => (AdminAccessRequired, db)
  | Some user =>
      if negb (is_admin_role user) then (AdminAccessRequired, db)
      else if p_user_id =? s_user_id user then (CannotDeleteYourself, db)
      else (UserDeleted, set_users (delete p_user_id (users db)) db)
  end.

(** ** The dashboard queries (main.py) *)

(** The tools that have never been reserved:
    [SELECT tool_id, name, category FROM tools EXCEPT SELECT DISTINCT
    t.tool_id, t.name, t.category FROM tools t JOIN reservations r ON
    t.tool_id = r.tool_id]. *)
Definition never_reserved_tools (db : database) : list (Z * string * string) :=
  let listed :=
    (fun it : Z * tools_row => (it.1, name it.2, category it.2))
      <$> map_to_list (tools db) in
  let reserved :=
    map_to_list (tools db) ≫= (fun it : Z * tools_row =>
      (fun _ : Z * reservations_row => (it.1, name it.2, category it.2))
        <$> filter (fun jr : Z * reservations_row => tool_id jr.2 = it.1)
                   (map_to_list (reservations db))) in
  remove_dups (list_difference listed (remove_dups reserved)).

Record ratable_row := {
  rr_reservation_id : Z;
  rr_tool_name : string;
  other_user_id : Z;
  other_user_name : string
}.

(** [EXISTS (SELECT 1 FROM ratings rt WHERE rt.reservation_id =
    r.reservation_id AND rt.rater_id = :user_id)]. *)
Definition has_rated (db : database) (p_reservation_id p_user_id : Z) : bool :=
  existsb (fun kv : Z * ratings_row =>
             (reservation_id kv.2 =? p_reservation_id)
             && (rater_id kv.2 =? p_user_id))
          (map_to_list (ratings db)).

(** The completed reservations the user took part in and has not rated
    yet, each with the other party. *)
Definition ratable_reservations (db : database) (p_user_id : Z) : list ratable_row :=
  omap (fun ir : Z * reservations_row =>
          t ← tools db !! tool_id ir.2;
          owner ← users db !! owner_id t;
          borrower ← users db !! borrower_id ir.2;
          if String.eqb (status ir.2) "completed"
             && ((borrower_id ir.2 =? p_user_id) || (owner_id t =? p_user_id))
             && negb (has_rated db ir.1 p_user_id)
          then
            Some {| rr_reservation_id := ir.1;
                    rr_tool_name := name t;
                    other_user_id :=
                      if borrower_id ir.2 =? p_user_id then owner_id t
                      else borrower_id ir.2;
                    other_user_name :=
                      if borrower_id ir.2 =? p_user_id then username owner
                      else username borrower |}
          else None)
       (map_to_list (reservations db)).

(** ** The activity report (migrate_db.py) *)

Record activity_row := {
  activity_type : string;
  ar_tool_name : string;
  partner_name : string;
  activity_date : Z;
  ar_status : string
}.

(** The first branch of the cursor's query: what the user borrowed. *)
Definition borrowed_rows (db : database) (p_user_id : Z) : list activity_row :=
  omap (fun ir : Z * reservations_row =>
          t ← tools db !! tool_id ir.2;
          owner ← users db !! owner_id t;
          if borrower_id ir.2 =? p_user_id then
            Some {| activity_type := "borrowed"; ar_tool_name := name t;
                    partner_name := username owner;
                    activity_date := start_date ir.2;
                    ar_status := status ir.2 |}
          else None)
       (map_to_list (reservations db)).

(** The second branch: what the user lent. *)
Definition lent_rows (db : database) (p_user_id : Z) : list activity_row :=
  omap (fun ir : Z * reservations_row =>
          t ← tools db !! tool_id ir.2;
          borrower ← users db !! borrower_id ir.2;
          if owner_id t =? p_user_id then
            Some {| activity_type := "lent"; ar_tool_name := name t;
                    partner_name := username borrower;
                    activity_date := start_date ir.2;
                    ar_status := status ir.2 |}
          else None)
       (map_to_list (reservations db)).

(** [ORDER BY activity_date DESC]. *)
Definition date_desc (x y : activity_row) : Prop :=
  activity_date y <= activity_date x.

#[local] Instance date_desc_dec : RelDecision date_desc.
Proof. intros x y. unfold date_desc. apply _. Defined.

(** [get_user_activity_report]: the loop returns the rows of the cursor
    one by one, so the result is the [UNION ALL] of the two branches in
    the order of the [ORDER BY]. *)
Definition get_user_activity_report (db : database) (p_user_id : Z)
    : list activity_row :=
  merge_sort date_desc (borrowed_rows db p_user_id ++ lent_rows db p_user_id).

(** ** Calling functions and procedures (database.py) *)

Module Database.

(** [", ".join(l)]. *)
Fixpoint join (sep : string) (l : list string) : string :=
  match l with
  | [] => ""
  | [x] => x
  | x :: l' => x +:+ sep +:+ join sep l'
  end.

(** [f":p{i}"] and [f"p{i}"]. *)
Definition placeholder (i : nat) : string := ":p" +:+ pretty i.
Definition param_name (i : nat) : string := "p" +:+ pretty i.

(** [", ".join([f":p{i}" for i in range(len(args))])]. *)
Definition params_placeholder {A} (args : list A) : string :=
  join ", " (placeholder <$> seq 0 (length args)).

(** [{f"p{i}": arg for i, arg in enumerate(args)}]: the entries are
    stored one after the other, a later one over an earlier one. *)
Definition params {A} (args : list A) : gmap string A :=
  fold_left (fun d (ia : nat * A) => <[param_name ia.1 := ia.2]> d)
            (imap pair args) ∅.

(** The query and the bindings [execute_function] hands to
    [execute_raw_sql]. *)
Definition execute_function {A} (function_name : string) (args : list A)
    : string * gmap string A :=
  ("SELECT * FROM " +:+ function_name +:+ "(" +:+ params_placeholder args +:+ ")",
   params args).

(** The query and the bindings [call_procedure] hands to
    [execute_raw_sql]. *)
Definition call_procedure {A} (procedure_name : string) (args : list A)
    : string * gmap string A :=
  ("CALL " +:+ procedure_name +:+ "(" +:+ params_placeholder args +:+ ")",
   params args).

End Database.

(** No two rows of the user table share a username or an email. *)
Definition credentials_unique (db : database) : Prop :=
  forall i j u v,
    users db !! i = Some u -> users db !! j = Some v ->
    username u = username v \/ email u = email v -> i = j.

(** No reservation is held by the owner of its tool. *)
Definition no_self_booking (db : database) : Prop :=
  forall i r t,
    reservations db !! i = Some r -> tools db !! tool_id r = Some t ->
    owner_id t <> borrower_id r.

(** ** More example states *)

Module Ex2.

Definition admin_session : session_user :=
  {| s_user_id := 9; s_username := "root"; s_role := "admin"; s_trust_score := 0 |}.

Definition sessions : gmap string session_user :=
  <[ "sid-root" := admin_session ]> Ex.sessions.

Definition as_root : request := {| cookie_session_id := Some "sid-root" |}.

Definition alice_session : session_user :=
  {| s_user_id := 1; s_username := "alice"; s_role := "user"; s_trust_score := 0 |}.

(** Bob's reservation [1, 5) of the drill, completed. *)
Definition db_done : database :=
  snd (update_reservation_status Ex.sessions Ex.as_alice 1 "completed" 150 Ex.db_A).

(** ... and rated by Bob. *)
Definition db_done_rated : database :=
  snd (add_rating Ex.sessions Ex.as_bob 1 1 5 "thanks" db_done).

End Ex2.

(** * Properties *)

(** ** Counting rows *)

Section count.
Context {A : Type} (P : Z * A -> Prop) `{!forall x, Decision (P x)}.

Lemma count_zero (m : gmap Z A) :
  size (filter P m) = 0%nat <-> forall i x, m !! i = Some x -> ~ P (i, x).
Proof.
  rewrite map_size_empty_iff, map_empty. split.
  - intros Hall i x Hi HP.
    specialize (Hall i). apply map_lookup_filter_None in Hall.
    destruct Hall as [Hn | Hn]; [congruence | exact (Hn x Hi HP)].
  - intros Hall i. apply map_lookup_filter_None.
    destruct (m !! i) as [x|] eqn:Hi; [right | left; reflexivity].
    intros y Hy. inversion Hy; subst. exact (Hall i y Hi).
Qed.

Lemma count_pos (m : gmap Z A) :
  (0 < size (filter P m))%nat <-> exists i x, m !! i = Some x /\ P (i, x).
Proof.
  split.
  - intros Hpos.
    assert (Hne : filter P m <> ∅).
    { intros E. rewrite E, map_size_empty in Hpos. lia. }
    apply map_choose in Hne. destruct Hne as (i & x & Hix).
    apply map_lookup_filter_Some in Hix. destruct Hix. eauto.
  - intros (i & x & Hi & HP).
    destruct (size (filter P m)) eqn:E; [| lia].
    destruct (proj1 (count_zero m) E i x Hi HP).
Qed.
End count.

Lemma seq_freshb_sound db : seq_freshb db = true -> seq_fresh db.
Proof.
  unfold seq_freshb. rewrite bool_decide_eq_true. intros Hall i Hi.
  destruct (reservations db !! i) as [r|] eqn:E; [| reflexivity].
  apply Hall in E. lia.
Qed.

(** ** The overlap predicate *)

Lemma overlaps_spec s1 e1 s2 e2 :
  overlaps s1 e1 s2 e2 = true <-> s1 < e2 /\ e1 > s2.
Proof.
  unfold overlaps. rewrite andb_true_iff, Z.ltb_lt, Z.gtb_gt. tauto.
Qed.

Lemma overlaps_false s1 e1 s2 e2 :
  overlaps s1 e1 s2 e2 = false <-> ~ (s1 < e2 /\ e1 > s2).
Proof.
  rewrite <- overlaps_spec, not_true_iff_false. reflexivity.
Qed.

Lemma overlaps_sym s1 e1 s2 e2 :
  overlaps s1 e1 s2 e2 = overlaps s2 e2 s1 e1.
Proof.
  apply eq_true_iff_eq. rewrite !overlaps_spec. lia.
Qed.

Lemma check_tool_availability_spec rs t a b :
  check_tool_availability rs t a b = true <-> ~ has_conflict rs t a b.
Proof.
  unfold check_tool_availability, has_conflict.
  rewrite Nat.eqb_eq, count_zero. split.
  - intros H (i & r & Hi & Ht & Hs & Ho1 & Ho2).
    apply (H i r Hi). simpl.
    rewrite !andb_true_iff, Z.eqb_eq, overlaps_spec. tauto.
  - intros H i r Hi HP. apply H. exists i, r. simpl in HP.
    rewrite !andb_true_iff, Z.eqb_eq, overlaps_spec in HP. tauto.
Qed.

(** ** The trigger function *)

Lemma trigger_filter_iff (i id : Z) (r NEW : reservations_row) :
  (tool_id r =? tool_id NEW) && negb (i =? id) && is_active (status r)
    && overlaps (start_date r) (end_date r) (start_date NEW) (end_date NEW) = true
  <-> i <> id /\ tool_id r = tool_id NEW /\ is_active (status r) = true
      /\ start_date r < end_date NEW /\ end_date r > start_date NEW.
Proof.
  rewrite !andb_true_iff, negb_true_iff, Z.eqb_eq, Z.eqb_neq, overlaps_spec. tauto.
Qed.

Lemma trigger_own_tool db nid NEW t :
  tools db !! tool_id NEW = Some t -> owner_id t = borrower_id NEW ->
  fn_prevent_double_booking db nid NEW
  = RaiseException "You cannot reserve your own tool.".
Proof.
  intros Ht Ho. unfold fn_prevent_double_booking.
  rewrite Ht. simpl. rewrite Ho, Z.eqb_refl. reflexivity.
Qed.

Lemma trigger_raises_conflict db nid NEW :
  sql_eq_nullable (owner_id <$> tools db !! tool_id NEW) (borrower_id NEW) = false ->
  trigger_conflict db (coalesce nid 0) NEW ->
  fn_prevent_double_booking db nid NEW
  = RaiseException "This tool is already reserved for the selected dates.".
Proof.
  intros Ho (i & r & Hi & Hc). unfold fn_prevent_double_booking. rewrite Ho.
  match goal with |- (if ?c then _ else _) = _ => assert (Hpos : c = true) end.
  { apply Nat.ltb_lt, count_pos. exists i, r. split; [exact Hi |].
    simpl. apply trigger_filter_iff. tauto. }
  rewrite Hpos. reflexivity.
Qed.

Lemma trigger_returns db nid NEW :
  sql_eq_nullable (owner_id <$> tools db !! tool_id NEW) (borrower_id NEW) = false ->
  ~ trigger_conflict db (coalesce nid 0) NEW ->
  fn_prevent_double_booking db nid NEW = ReturnNew NEW.
Proof.
  intros Ho Hno. unfold fn_prevent_double_booking. rewrite Ho.
  match goal with |- (if ?c then _ else _) = _ => assert (Hz : c = false) end.
  { apply Nat.ltb_ge. apply Nat.le_0_r, count_zero. intros i r Hi HP.
    apply Hno. exists i, r. split; [exact Hi |].
    simpl in HP. apply trigger_filter_iff in HP. tauto. }
  rewrite Hz. reflexivity.
Qed.

Lemma trigger_returned db nid NEW new :
  fn_prevent_double_booking db nid NEW = ReturnNew new ->
  new = NEW /\ ~ trigger_conflict db (coalesce nid 0) NEW.
Proof.
  unfold fn_prevent_double_booking.
  destruct (sql_eq_nullable _ _); [discriminate |].
  match goal with |- (if ?c then _ else _) = _ -> _ => destruct c eqn:Hc end;
    [discriminate |].
  intros E. injection E as <-. split; [reflexivity |].
  intros (i & r & Hi & Hcf).
  apply Nat.ltb_ge in Hc. apply Nat.le_0_r in Hc.
  apply (proj1 (count_zero _ _) Hc i r Hi).
  simpl. apply trigger_filter_iff. tauto.
Qed.

(** With a key drawn from the sequence no row is left out of the count. *)
Lemma trigger_conflict_fresh db id NEW :
  reservations db !! id = None ->
  trigger_conflict db id NEW
  <-> has_conflict (reservations db) (tool_id NEW) (start_date NEW) (end_date NEW).
Proof.
  intros Hfresh. unfold trigger_conflict, has_conflict. split.
  - intros (i & r & Hi & _ & H). exists i, r. tauto.
  - intros (i & r & Hi & H). exists i, r.
    split; [exact Hi |]. split; [congruence | tauto].
Qed.

(** ** What [add_reservation] answers *)

Lemma add_reservation_self S req t a b now db user :
  get_current_user S req = Some user ->
  owns db t user = true ->
  add_reservation S req t a b now db = (SelfBookingError, snd (nextval_reservation db)).
Proof.
  intros Hu Ho. unfold add_reservation, insert_reservation, run_trigger. rewrite Hu.
  simpl. unfold fn_prevent_double_booking. simpl.
  unfold owns in Ho. rewrite Ho. reflexivity.
Qed.

Lemma add_reservation_conflict S req t a b now db user :
  get_current_user S req = Some user ->
  owns db t user = false ->
  trigger_conflict db (reservation_seq db) (new_row user t a b now) ->
  add_reservation S req t a b now db = (BookingConflictError, snd (nextval_reservation db)).
Proof.
  intros Hu Ho Hc. unfold add_reservation, insert_reservation, run_trigger. rewrite Hu.
  simpl.
  rewrite (trigger_raises_conflict _ (Some (reservation_seq db)) (new_row user t a b now));
    [reflexivity | exact Ho | exact Hc].
Qed.

Lemma add_reservation_created S req t a b now db user :
  get_current_user S req = Some user ->
  owns db t user = false ->
  ~ trigger_conflict db (reservation_seq db) (new_row user t a b now) ->
  add_reservation S req t a b now db
  = (ReservationCreated,
     set_reservations (<[reservation_seq db := new_row user t a b now]> (reservations db))
                      (snd (nextval_reservation db))).
Proof.
  intros Hu Ho Hc. unfold add_reservation, insert_reservation, run_trigger. rewrite Hu.
  simpl.
  rewrite (trigger_returns _ (Some (reservation_seq db)) (new_row user t a b now));
    [reflexivity | exact Ho | exact Hc].
Qed.

(** ** The statements, case by case *)

Lemma insert_reservation_cases db row :
  match insert_reservation db row with
  | inl (_, db') => db' = snd (nextval_reservation db)
  | inr db' =>
      db' = set_reservations (<[reservation_seq db := row]> (reservations db))
                             (snd (nextval_reservation db))
      /\ ~ trigger_conflict db (reservation_seq db) row
  end.
Proof.
  unfold insert_reservation, run_trigger. simpl.
  destruct (fn_prevent_double_booking _ _ _) as [msg | new] eqn:E; [reflexivity |].
  apply trigger_returned in E. destruct E as [-> Hno]. split; [reflexivity | exact Hno].
Qed.

Lemma update_reservation_cases db rid st uid adm now :
  match update_reservation db rid st uid adm now with
  | inl _ => True
  | inr db' =>
      db' = db
      \/ exists r, reservations db !! rid = Some r
                   /\ may_update db r uid adm = true
                   /\ db' = set_reservations
                              (<[rid := updated_row r st now]> (reservations db)) db
                   /\ ~ trigger_conflict db rid (updated_row r st now)
  end.
Proof.
  unfold update_reservation, run_trigger.
  destruct (reservations db !! rid) as [r|] eqn:Hr; [| left; reflexivity].
  destruct (may_update db r uid adm) eqn:Hm; [| left; reflexivity].
  simpl.
  destruct (fn_prevent_double_booking _ _ _) as [msg | new] eqn:E; [exact I |].
  apply trigger_returned in E. destruct E as [-> Hno].
  right. exists r. repeat split; try reflexivity; assumption.
Qed.

Lemma delete_reservation_row_cases db rid uid adm :
  delete_reservation_row db rid uid adm = db
  \/ delete_reservation_row db rid uid adm
     = set_reservations (delete rid (reservations db)) db.
Proof.
  unfold delete_reservation_row.
  destruct (reservations db !! rid); [| left; reflexivity].
  destruct (_ || _); [right | left]; reflexivity.
Qed.

(** ** The ledger invariant *)

Lemma no_double_booking_empty : no_double_booking ∅.
Proof. intros i j r1 r2 Hi. rewrite lookup_empty in Hi. discriminate. Qed.

(** Writing a row the trigger has let through keeps the invariant,
    whether the key is new (insert) or not (update). *)
Lemma no_double_booking_write db id NEW :
  no_double_booking (reservations db) ->
  ~ trigger_conflict db id NEW ->
  no_double_booking (<[id := NEW]> (reservations db)).
Proof.
  intros Hinv Hno i j r1 r2 Hi Hj Hij Ht Ha1 Ha2.
  apply lookup_insert_Some in Hi. apply lookup_insert_Some in Hj.
  destruct Hi as [[<- <-] | [Hi1 Hi2]]; destruct Hj as [[<- <-] | [Hj1 Hj2]].
  - congruence.
  - apply overlaps_false. intros [Ho1 Ho2]. apply Hno.
    exists j, r2. repeat split; try assumption; try congruence; lia.
  - apply overlaps_false. intros [Ho1 Ho2]. apply Hno.
    exists i, r1. repeat split; try assumption; try congruence; lia.
  - exact (Hinv i j r1 r2 Hi2 Hj2 Hij Ht Ha1 Ha2).
Qed.

Lemma no_double_booking_delete rs id :
  no_double_booking rs -> no_double_booking (delete id rs).
Proof.
  intros Hinv i j r1 r2 Hi Hj.
  apply lookup_delete_Some in Hi. apply lookup_delete_Some in Hj.
  destruct Hi as [_ Hi]. destruct Hj as [_ Hj]. exact (Hinv i j r1 r2 Hi Hj).
Qed.

Lemma ledger_ok_nextval db :
  ledger_ok db -> ledger_ok (snd (nextval_reservation db)).
Proof.
  intros [Hf Hinv]. split; [| exact Hinv].
  intros i Hi. simpl in *. apply Hf. lia.
Qed.

Lemma add_reservation_ok S req t a b now db :
  ledger_ok db -> ledger_ok (snd (add_reservation S req t a b now db)).
Proof.
  intros Hok. unfold add_reservation.
  destruct (get_current_user S req) as [user|]; [| exact Hok].
  pose proof (insert_reservation_cases db (new_row user t a b now)) as Hc.
  fold (new_row user t a b now).
  destruct (insert_reservation db (new_row user t a b now)) as [[msg db'] | db'].
  - subst db'.
    destruct (PyStr.contains _ _); [apply ledger_ok_nextval, Hok |].
    destruct (PyStr.contains _ _); apply ledger_ok_nextval, Hok.
  - destruct Hc as [-> Hno]. destruct Hok as [Hf Hinv]. split.
    + intros i Hi. simpl in *. rewrite lookup_insert_ne by lia. apply Hf. lia.
    + simpl. apply no_double_booking_write; assumption.
Qed.

Lemma update_reservation_status_ok S req rid st now db :
  ledger_ok db -> ledger_ok (snd (update_reservation_status S req rid st now db)).
Proof.
  intros Hok. unfold update_reservation_status.
  destruct (get_current_user S req) as [user|]; [| exact Hok].
  pose proof (update_reservation_cases db rid st (s_user_id user)
                (is_admin_role user) now) as Hc.
  destruct (update_reservation _ _ _ _ _ _) as [msg | db']; [exact Hok |].
  destruct Hc as [-> | (r & Hr & _ & -> & Hno)]; [exact Hok |].
  destruct Hok as [Hf Hinv]. split.
  - intros i Hi. simpl in *.
    destruct (decide (rid = i)) as [<- | Hne].
    + rewrite (Hf rid Hi) in Hr. discriminate.
    + rewrite lookup_insert_ne by assumption. apply Hf, Hi.
  - simpl. apply no_double_booking_write; assumption.
Qed.

Lemma delete_reservation_ok S req rid db :
  ledger_ok db -> ledger_ok (snd (delete_reservation S req rid db)).
Proof.
  intros Hok. unfold delete_reservation.
  destruct (get_current_user S req) as [user|]; [| exact Hok].
  simpl.
  destruct (delete_reservation_row_cases db rid (s_user_id user) (is_admin_role user))
    as [-> | ->]; [exact Hok |].
  destruct Hok as [Hf Hinv]. split.
  - intros i Hi. simpl in *. apply lookup_delete_None. right. apply Hf, Hi.
  - simpl. apply no_double_booking_delete, Hinv.
Qed.

Lemma run_core_op_ok op db :
  ledger_ok db -> ledger_ok (snd (run_core_op op db)).
Proof.
  destruct op; simpl.
  - apply add_reservation_ok.
  - apply update_reservation_status_ok.
  - apply delete_reservation_ok.
Qed.

Lemma reachable_ledger_ok db : reachable db -> ledger_ok db.
Proof.
  induction 1 as [db Hempty | db op _ IH | db db' _ IH Hrs Hseq].
  - split.
    + intros i _. rewrite Hempty. apply lookup_empty.
    + rewrite Hempty. apply no_double_booking_empty.
  - apply run_core_op_ok, IH.
  - destruct IH as [Hf Hinv]. split.
    + intros i Hi. rewrite Hrs. apply Hf. lia.
    + rewrite Hrs. exact Hinv.
Qed.

(** C1.  In every reachable state the ledger invariant holds, and every
    core operation (creating a reservation, updating a reservation's
    status, deleting a reservation) leads to a state in which it holds:
    two different reservations of one tool whose status is pending or
    approved never overlap under the strict, touching-allowed test. *)
Theorem no_double_booking_invariant db :
  reachable db ->
  no_double_booking (reservations db)
  /\ forall op, no_double_booking (reservations (snd (run_core_op op db))).
Proof.
  intros Hr. split.
  - apply reachable_ledger_ok, Hr.
  - intros op. apply (run_core_op_ok op db), reachable_ledger_ok, Hr.
Qed.

Lemma no_double_booking_invariant_witness :
  reachable Ex.db_AB
  /\ no_double_booking (reservations Ex.db_AB)
  /\ forall op, no_double_booking (reservations (snd (run_core_op op Ex.db_AB))).
Proof.
  assert (Hr : reachable Ex.db_AB).
  { apply (reachable_step _ (CreateReservation Ex.sessions Ex.as_bob 1 5 10 101)).
    apply (reachable_step _ (CreateReservation Ex.sessions Ex.as_bob 1 1 5 100)).
    apply reachable_init. reflexivity. }
  split; [exact Hr |]. apply (no_double_booking_invariant Ex.db_AB Hr).
Defined.

(** ** Creating a reservation *)

Lemma check_tool_availability_false rs t a b :
  check_tool_availability rs t a b = false <-> has_conflict rs t a b.
Proof.
  unfold check_tool_availability, has_conflict.
  rewrite Nat.eqb_neq, Nat.neq_0_lt_0, count_pos.
  split; intros (i & r & Hi & HP); exists i, r; (split; [exact Hi |]).
  - simpl in HP. rewrite !andb_true_iff, Z.eqb_eq, overlaps_spec in HP. tauto.
  - simpl. rewrite !andb_true_iff, Z.eqb_eq, overlaps_spec. tauto.
Qed.

Lemma owns_true db t user :
  owns db t user = true
  <-> exists tool, tools db !! t = Some tool /\ owner_id tool = s_user_id user.
Proof.
  unfold owns. destruct (tools db !! t) as [tool|]; simpl.
  - rewrite Z.eqb_eq. split; [eauto |]. intros (x & E & H). congruence.
  - split; [discriminate |]. intros (x & E & _). discriminate.
Qed.

Lemma new_row_conflict db user t a b now :
  seq_fresh db ->
  trigger_conflict db (reservation_seq db) (new_row user t a b now)
  <-> has_conflict (reservations db) t a b.
Proof.
  intros Hf. apply (trigger_conflict_fresh db _ (new_row user t a b now)).
  apply Hf. lia.
Qed.

Lemma add_reservation_has_conflict S req t a b now db user :
  get_current_user S req = Some user ->
  seq_fresh db ->
  owns db t user = false ->
  has_conflict (reservations db) t a b ->
  add_reservation S req t a b now db
  = (BookingConflictError, snd (nextval_reservation db)).
Proof.
  intros Hu Hf Ho Hc. apply (new_row_conflict db user t a b now Hf) in Hc.
  exact (add_reservation_conflict S req t a b now db user Hu Ho Hc).
Qed.

Lemma add_reservation_no_conflict S req t a b now db user :
  get_current_user S req = Some user ->
  seq_fresh db ->
  owns db t user = false ->
  ~ has_conflict (reservations db) t a b ->
  add_reservation S req t a b now db
  = (ReservationCreated,
     set_reservations (<[reservation_seq db := new_row user t a b now]> (reservations db))
                      (snd (nextval_reservation db)))
  /\ reservations db !! reservation_seq db = None.
Proof.
  intros Hu Hf Ho Hc. rewrite <- (new_row_conflict db user t a b now Hf) in Hc.
  split; [exact (add_reservation_created S req t a b now db user Hu Ho Hc) |].
  apply Hf. lia.
Qed.

(** ** The boundary policy *)

(** For well-formed intervals the strict test says that the two
    half-open intervals share an instant. *)
Lemma overlaps_share_instant s1 e1 s2 e2 :
  s1 < e1 -> s2 < e2 ->
  overlaps s1 e1 s2 e2 = true <-> exists x, (s1 <= x < e1) /\ (s2 <= x < e2).
Proof.
  intros H1 H2. rewrite overlaps_spec. split.
  - intros [Ha Hb]. exists (Z.max s1 s2). lia.
  - intros (x & Hx1 & Hx2). lia.
Qed.

(** On a tool without active reservations, a borrower who is not the
    owner books [a, m) and then [m, b); a third request that reaches
    into either of the two is refused. *)
Lemma touching_then_overlapping S req t a m b now1 now2 now3 db user :
  get_current_user S req = Some user ->
  seq_fresh db ->
  owns db t user = false ->
  (forall i r, reservations db !! i = Some r -> tool_id r = t ->
               is_active (status r) = false) ->
  a < m -> m < b ->
  let res1 := add_reservation S req t a m now1 db in
  let res2 := add_reservation S req t m b now2 (snd res1) in
  fst res1 = ReservationCreated
  /\ fst res2 = ReservationCreated
  /\ forall c d,
       (c < m /\ d > a) \/ (c < b /\ d > m) ->
       fst (add_reservation S req t c d now3 (snd res2)) = BookingConflictError
       /\ reservations (snd (add_reservation S req t c d now3 (snd res2)))
          = reservations (snd res2).
Proof.
  intros Hu Hf Ho Hfree Ham Hmb.
  assert (Hc1 : ~ has_conflict (reservations db) t a m).
  { intros (i & r & Hi & Ht & Hact & _). rewrite (Hfree i r Hi Ht) in Hact.
    discriminate. }
  destruct (add_reservation_no_conflict S req t a m now1 db user Hu Hf Ho Hc1)
    as [E1 Hnone1].
  cbv zeta. rewrite E1. cbn [fst snd].
  set (db1 := set_reservations _ _).
  assert (Hf1 : seq_fresh db1).
  { intros i Hi. subst db1. simpl in *. rewrite lookup_insert_ne by lia.
    apply Hf. lia. }
  assert (Hc2 : ~ has_conflict (reservations db1) t m b).
  { intros (i & r & Hi & Ht & Hact & Hs & He). subst db1. simpl in Hi.
    apply lookup_insert_Some in Hi. destruct Hi as [[_ <-] | [_ Hi]].
    - simpl in He. lia.
    - rewrite (Hfree i r Hi Ht) in Hact. discriminate. }
  destruct (add_reservation_no_conflict S req t m b now2 db1 user Hu Hf1 Ho Hc2)
    as [E2 Hnone2].
  rewrite E2. cbn [fst snd].
  set (db2 := set_reservations _ _).
  assert (Hf2 : seq_fresh db2).
  { intros i Hi. subst db2. simpl in *. rewrite lookup_insert_ne by lia.
    apply Hf1. subst db1. simpl. lia. }
  split; [reflexivity |]. split; [reflexivity |].
  intros c d Hcd.
  assert (Hc3 : has_conflict (reservations db2) t c d).
  { destruct Hcd as [[H1 H2] | [H1 H2]].
    - exists (reservation_seq db), (new_row user t a m now1).
      split.
      + subst db2 db1. simpl. rewrite lookup_insert_ne by lia.
        apply lookup_insert_eq.
      + simpl. repeat split; try reflexivity; lia.
    - exists (reservation_seq db1), (new_row user t m b now2).
      split.
      + subst db2. simpl. apply lookup_insert_eq.
      + simpl. repeat split; try reflexivity; lia. }
  rewrite (add_reservation_has_conflict S req t c d now3 db2 user Hu Hf2 Ho Hc3).
  split; reflexivity.
Qed.

(** C2.  The overlap test is strict on both sides: [s1, e1) and
    [s2, e2) conflict exactly when s1 < e2 and e1 > s2, so an interval
    that starts where another ends does not conflict with it, and
    [check_tool_availability] answers false exactly when some active
    reservation of the tool conflicts.  On any tool that is free, a
    borrower who is not the owner books [a, m) and then [m, b), and a
    request that reaches into either is refused as a booking conflict.
    On the drill, A = [1, 5) and B = [5, 10) are both created, and
    C = [4, 6) is rejected against A and B together, against A alone
    and against B alone. *)
Theorem overlap_policy_strict :
  (forall s1 e1 s2 e2, overlaps s1 e1 s2 e2 = true <-> s1 < e2 /\ e1 > s2)
  /\ (forall s1 e1 e2, overlaps s1 e1 e1 e2 = false /\ overlaps e1 e2 s1 e1 = false)
  /\ (forall rs t a b, check_tool_availability rs t a b = false <-> has_conflict rs t a b)
  /\ (forall S req t a m b now1 now2 now3 db user,
        get_current_user S req = Some user ->
        seq_fresh db ->
        owns db t user = false ->
        (forall i r, reservations db !! i = Some r -> tool_id r = t ->
                     is_active (status r) = false) ->
        a < m -> m < b ->
        let res1 := add_reservation S req t a m now1 db in
        let res2 := add_reservation S req t m b now2 (snd res1) in
        fst res1 = ReservationCreated
        /\ fst res2 = ReservationCreated
        /\ forall c d,
             (c < m /\ d > a) \/ (c < b /\ d > m) ->
             fst (add_reservation S req t c d now3 (snd res2)) = BookingConflictError
             /\ reservations (snd (add_reservation S req t c d now3 (snd res2)))
                = reservations (snd res2))
  /\ fst (add_reservation Ex.sessions Ex.as_bob 1 1 5 100 Ex.db0) = ReservationCreated
  /\ fst (add_reservation Ex.sessions Ex.as_bob 1 5 10 101 Ex.db_A) = ReservationCreated
  /\ size (reservations Ex.db_AB) = 2%nat
  /\ fst (add_reservation Ex.sessions Ex.as_bob 1 4 6 102 Ex.db_AB) = BookingConflictError
  /\ reservations (snd (add_reservation Ex.sessions Ex.as_bob 1 4 6 102 Ex.db_AB))
     = reservations Ex.db_AB
  /\ fst (add_reservation Ex.sessions Ex.as_bob 1 4 6 102 Ex.db_A) = BookingConflictError
  /\ fst (add_reservation Ex.sessions Ex.as_bob 1 4 6 102 Ex.db_B) = BookingConflictError.
Proof.
  split; [exact overlaps_spec |].
  split.
  { intros s1 e1 e2. split; apply overlaps_false; lia. }
  split; [exact check_tool_availability_false |].
  split; [exact touching_then_overlapping |].
  repeat split; vm_compute; reflexivity.
Qed.

Lemma overlap_policy_strict_witness :
  fst (add_reservation Ex.sessions Ex.as_bob 1 1 5 100 Ex.db0) = ReservationCreated
  /\ fst (add_reservation Ex.sessions Ex.as_bob 1 5 10 101 Ex.db_A) = ReservationCreated
  /\ fst (add_reservation Ex.sessions Ex.as_bob 1 4 6 102 Ex.db_AB) = BookingConflictError.
Proof.
  destruct (proj1 (proj2 (proj2 (proj2 overlap_policy_strict)))
              Ex.sessions Ex.as_bob 1 1 5 10 100 101 102 Ex.db0 Ex.bob_session)
    as (H1 & H2 & H3).
  - reflexivity.
  - apply seq_freshb_sound. reflexivity.
  - reflexivity.
  - intros i r Hi. vm_compute in Hi. discriminate.
  - lia.
  - lia.
  - split; [exact H1 |]. split; [exact H2 |].
    apply (H3 4 6). left. lia.
Defined.

(** The check of fix_overlap.py and the trigger agree on a new row of a
    borrower who does not own the tool. *)
Lemma fixed_check_agrees_with_trigger db NEW :
  seq_fresh db ->
  sql_eq_nullable (owner_id <$> tools db !! tool_id NEW) (borrower_id NEW) = false ->
  check_tool_availability (reservations db) (tool_id NEW) (start_date NEW) (end_date NEW)
  = false
  <-> fn_prevent_double_booking db (Some (reservation_seq db)) NEW
      = RaiseException "This tool is already reserved for the selected dates.".
Proof.
  intros Hf Ho. rewrite check_tool_availability_false.
  rewrite <- (trigger_conflict_fresh db (reservation_seq db) NEW)
    by (apply Hf; lia).
  split.
  - intros Hc. apply trigger_raises_conflict; assumption.
  - intros E.
    destruct (fn_prevent_double_booking db (Some (reservation_seq db)) NEW)
      as [msg | new] eqn:E'; [| discriminate].
    unfold fn_prevent_double_booking in E'. rewrite Ho in E'.
    match type of E' with (if ?c then _ else _) = _ => destruct c eqn:Hc end;
      [| discriminate].
    apply Nat.ltb_lt, count_pos in Hc. destruct Hc as (i & r & Hi & HP).
    simpl in HP. apply trigger_filter_iff in HP.
    exists i, r. split; [exact Hi | tauto].
Qed.

(** C3.  The two copies of the boundary test have drifted: with Bob's
    reservation [1, 5) of the drill in the table, migrate_db.py's
    [check_tool_availability] answers false for the candidate [5, 10),
    while the trigger lets the same candidate through and the
    reservation is created.  fix_overlap.py's copy answers true. *)
Theorem availability_check_drift :
  check_tool_availability_migrate (reservations Ex.db_A) 1 5 10 = false
  /\ fn_prevent_double_booking Ex.db_A (Some 2)
       {| tool_id := 1; borrower_id := 2; start_date := 5; end_date := 10;
          status := "pending"; last_updated := 101 |}
     = ReturnNew {| tool_id := 1; borrower_id := 2; start_date := 5; end_date := 10;
                    status := "pending"; last_updated := 101 |}
  /\ fst (add_reservation Ex.sessions Ex.as_bob 1 5 10 101 Ex.db_A) = ReservationCreated
  /\ check_tool_availability (reservations Ex.db_A) 1 5 10 = true.
Proof. repeat split; vm_compute; reflexivity. Qed.

(** ** Conflicts and self-booking *)

(** C4 (amended).  For a logged-in borrower who does not own the tool:
    when an active reservation of the tool overlaps the candidate, the
    call answers [BookingConflictError] and the reservation table is as
    before; otherwise the call succeeds, the table gains exactly one
    row, and that row is the candidate with status pending. *)
Theorem create_reservation_conflict_or_insert S req t a b now db user :
  get_current_user S req = Some user ->
  seq_fresh db ->
  owns db t user = false ->
  (has_conflict (reservations db) t a b ->
     fst (add_reservation S req t a b now db) = BookingConflictError
     /\ reservations (snd (add_reservation S req t a b now db)) = reservations db)
  /\ (~ has_conflict (reservations db) t a b ->
     fst (add_reservation S req t a b now db) = ReservationCreated
     /\ reservations db !! reservation_seq db = None
     /\ reservations (snd (add_reservation S req t a b now db))
        = <[reservation_seq db := new_row user t a b now]> (reservations db)
     /\ size (reservations (snd (add_reservation S req t a b now db)))
        = Datatypes.S (size (reservations db))
     /\ status (new_row user t a b now) = "pending").
Proof.
  intros Hu Hf Ho. split.
  - intros Hc.
    rewrite (add_reservation_has_conflict S req t a b now db user Hu Hf Ho Hc).
    split; reflexivity.
  - intros Hc.
    destruct (add_reservation_no_conflict S req t a b now db user Hu Hf Ho Hc)
      as [-> Hnone].
    repeat split; try reflexivity; try assumption.
    simpl. apply map_size_insert_None, Hnone.
Qed.

Lemma create_reservation_conflict_or_insert_witness :
  (fst (add_reservation Ex.sessions Ex.as_bob 1 4 6 102 Ex.db_A) = BookingConflictError
   /\ reservations (snd (add_reservation Ex.sessions Ex.as_bob 1 4 6 102 Ex.db_A))
      = reservations Ex.db_A)
  /\ fst (add_reservation Ex.sessions Ex.as_bob 1 5 10 101 Ex.db_A) = ReservationCreated.
Proof.
  assert (Hu : get_current_user Ex.sessions Ex.as_bob = Some Ex.bob_session)
    by reflexivity.
  assert (Hf : seq_fresh Ex.db_A) by (apply seq_freshb_sound; reflexivity).
  split.
  - apply (create_reservation_conflict_or_insert Ex.sessions Ex.as_bob
             1 4 6 102 Ex.db_A Ex.bob_session Hu Hf eq_refl).
    apply check_tool_availability_false. reflexivity.
  - apply (create_reservation_conflict_or_insert Ex.sessions Ex.as_bob
             1 5 10 101 Ex.db_A Ex.bob_session Hu Hf eq_refl).
    apply check_tool_availability_spec. reflexivity.
Defined.

(** C4 as first worded fails when the borrower owns the tool:
    Alice asks for her own drill over [2, 4) while Bob holds it for
    [1, 5), and the answer is the self-booking error. *)
Lemma create_reservation_conflict_counterexample :
  ~ (has_conflict (reservations Ex.db_A) 1 2 4 ->
     fst (add_reservation Ex.sessions Ex.as_alice 1 2 4 102 Ex.db_A)
     = BookingConflictError).
Proof.
  intros H.
  assert (Hc : has_conflict (reservations Ex.db_A) 1 2 4).
  { exists 1, (new_row {| s_user_id := 2; s_username := "bob";
                          s_role := "user"; s_trust_score := 0 |} 1 1 5 100).
    split; [reflexivity |]. simpl. repeat split; lia. }
  specialize (H Hc). vm_compute in H. discriminate.
Qed.

(** C5.  A logged-in user who asks for a tool they own gets the
    self-booking error, whatever the interval, and the reservation table
    is as before. *)
Theorem self_booking_rejected S req t a b now db user tool :
  get_current_user S req = Some user ->
  tools db !! t = Some tool ->
  owner_id tool = s_user_id user ->
  fst (add_reservation S req t a b now db) = SelfBookingError
  /\ reservations (snd (add_reservation S req t a b now db)) = reservations db.
Proof.
  intros Hu Ht Ho.
  assert (Hown : owns db t user = true) by (apply owns_true; eauto).
  rewrite (add_reservation_self S req t a b now db user Hu Hown).
  split; reflexivity.
Qed.

Lemma self_booking_rejected_witness :
  fst (add_reservation Ex.sessions Ex.as_alice 1 20 30 100 Ex.db_AB) = SelfBookingError
  /\ reservations (snd (add_reservation Ex.sessions Ex.as_alice 1 20 30 100 Ex.db_AB))
     = reservations Ex.db_AB.
Proof.
  apply (self_booking_rejected Ex.sessions Ex.as_alice 1 20 30 100 Ex.db_AB
           {| s_user_id := 1; s_username := "alice";
              s_role := "user"; s_trust_score := 0 |} Ex.drill);
    reflexivity.
Defined.

(** C8 (amended).  An interval with start >= end is not turned away for
    that reason: the call goes through the same two checks as any other,
    and when the logged-in borrower does not own the tool and no active
    reservation of the tool overlaps the candidate, it succeeds and
    stores the candidate as a pending row. *)
Theorem inverted_interval_accepted S req t a b now db user :
  a >= b ->
  get_current_user S req = Some user ->
  seq_fresh db ->
  owns db t user = false ->
  ~ has_conflict (reservations db) t a b ->
  fst (add_reservation S req t a b now db) = ReservationCreated
  /\ reservations (snd (add_reservation S req t a b now db))
     = <[reservation_seq db := new_row user t a b now]> (reservations db)
  /\ reservations db !! reservation_seq db = None.
Proof.
  intros _ Hu Hf Ho Hc.
  destruct (add_reservation_no_conflict S req t a b now db user Hu Hf Ho Hc)
    as [-> Hnone].
  repeat split; try reflexivity; assumption.
Qed.

Lemma inverted_interval_accepted_witness :
  fst (add_reservation Ex.sessions Ex.as_bob 1 5 3 100 Ex.db0) = ReservationCreated
  /\ reservations (snd (add_reservation Ex.sessions Ex.as_bob 1 5 3 100 Ex.db0))
     = <[1 := new_row Ex.bob_session 1 5 3 100]> (reservations Ex.db0)
  /\ reservations Ex.db0 !! 1 = None.
Proof.
  apply (inverted_interval_accepted Ex.sessions Ex.as_bob 1 5 3 100 Ex.db0
           Ex.bob_session).
  - lia.
  - reflexivity.
  - apply seq_freshb_sound. reflexivity.
  - reflexivity.
  - apply check_tool_availability_spec. reflexivity.
Defined.

(** C8 as first worded fails: Bob asks for the drill over the
    inverted interval from 5 to 3, and the reservation is created. *)
Lemma inverted_interval_counterexample :
  ~ (5 >= 3 ->
     fst (add_reservation Ex.sessions Ex.as_bob 1 5 3 100 Ex.db0) <> ReservationCreated
     /\ reservations (snd (add_reservation Ex.sessions Ex.as_bob 1 5 3 100 Ex.db0))
        = reservations Ex.db0).
Proof.
  intros H. destruct H as [H _]; [lia |]. apply H. reflexivity.
Qed.

(** ** Updating a status without the right to *)

(** C9.  When the logged-in user is not an admin and does not own the
    tool of the reservation, [update_reservation_status] matches no row:
    it answers as a success and the whole database, every status and
    every last-modified instant included, is as before. *)
Theorem unauthorized_update_is_noop S req rid st now db user :
  get_current_user S req = Some user ->
  is_admin_role user = false ->
  (forall r tool, reservations db !! rid = Some r ->
                  tools db !! tool_id r = Some tool ->
                  owner_id tool <> s_user_id user) ->
  update_reservation_status S req rid st now db = (StatusUpdated st, db).
Proof.
  intros Hu Ha Hno. unfold update_reservation_status, update_reservation.
  rewrite Hu, Ha.
  destruct (reservations db !! rid) as [r|] eqn:Hr; [| reflexivity].
  unfold may_update.
  destruct (tools db !! tool_id r) as [tool|] eqn:Ht; [| reflexivity].
  rewrite orb_false_r.
  destruct (owner_id tool =? s_user_id user) eqn:E; [| reflexivity].
  apply Z.eqb_eq in E. destruct (Hno r tool eq_refl Ht E).
Qed.

Lemma unauthorized_update_is_noop_witness :
  update_reservation_status Ex.sessions Ex.as_bob 1 "approved" 200 Ex.db_A
  = (StatusUpdated "approved", Ex.db_A).
Proof.
  apply (unauthorized_update_is_noop Ex.sessions Ex.as_bob 1 "approved" 200 Ex.db_A
           Ex.bob_session).
  - reflexivity.
  - reflexivity.
  - intros r tool Hr Ht.
    vm_compute in Hr. injection Hr as <-.
    vm_compute in Ht. injection Ht as <-.
    simpl. lia.
Defined.

(** ** Ratings *)

Lemma add_rating_cases S req rid ruid sc cm db :
  let res := add_rating S req rid ruid sc cm db in
  (fst res = RatingSubmitted
   /\ exists user, get_current_user S req = Some user
        /\ 1 <= sc <= 5
        /\ ratings (snd res)
           = <[rating_seq db := {| reservation_id := rid; rater_id := s_user_id user;
                                    rated_user_id := ruid; score := sc;
                                    comment := cm |}]> (ratings db)
        /\ users (snd res)
           = alter (set_trust_score (mean (scores_received (ratings (snd res)) ruid)))
                   ruid (users db))
  \/ (fst res <> RatingSubmitted
      /\ ratings (snd res) = ratings db /\ users (snd res) = users db).
Proof.
  unfold add_rating.
  destruct (get_current_user S req) as [user|]; [| right; repeat split; discriminate].
  unfold insert_rating, chk_rating_score. simpl.
  destruct (negb (ratings_row_fits _)).
  { right. simpl. repeat split; discriminate. }
  destruct ((1 <=? sc) && (sc <=? 5)) eqn:E.
  - left. split; [reflexivity |]. exists user.
    apply andb_true_iff in E. rewrite !Z.leb_le in E.
    repeat split; try reflexivity; lia.
  - right. simpl. repeat split; discriminate.
Qed.

Lemma fits_integer_true z :
  fits_integer z = true <-> -2147483648 <= z <= 2147483647.
Proof. unfold fits_integer. rewrite andb_true_iff, !Z.leb_le. reflexivity. Qed.




(** The mean is the sum over the count, as rationals. *)
Lemma mean_spec scores :
  (mean scores == inject_Z (sum_scores scores) / inject_Z (Z.of_nat (length scores)))%Q.
Proof. unfold mean. apply Qred_correct. Qed.

Lemma sum_scores_Permutation l1 l2 :
  l1 ≡ₚ l2 -> sum_scores l1 = sum_scores l2.
Proof.
  induction 1 as [| x l l' _ IH | x y l | l l' l'' _ IH1 _ IH2]; simpl.
  - reflexivity.
  - unfold sum_scores in *. simpl. lia.
  - unfold sum_scores. simpl. lia.
  - congruence.
Qed.

Lemma mean_Permutation l1 l2 : l1 ≡ₚ l2 -> mean l1 = mean l2.
Proof.
  intros Hp. unfold mean.
  rewrite (sum_scores_Permutation l1 l2 Hp), (Permutation_length Hp). reflexivity.
Qed.

(** A rating stored under a new key adds its score to those of the
    rated user and to nobody else's. *)
Lemma scores_received_insert rt id row uid :
  rt !! id = None ->
  scores_received (<[id := row]> rt) uid
  ≡ₚ (if decide (rated_user_id row = uid) then [score row] else [])
     ++ scores_received rt uid.
Proof.
  intros Hnone. unfold scores_received.
  rewrite (map_to_list_insert rt id row Hnone). rewrite fmap_cons. simpl.
  rewrite filter_cons. destruct (decide (rated_user_id row = uid)); reflexivity.
Qed.

Lemma add_rating_submitted S req rid ruid sc cm db db' u :
  add_rating S req rid ruid sc cm db = (RatingSubmitted, db') ->
  users db' !! ruid = Some u ->
  trust_score u = mean (scores_received (ratings db') ruid).
Proof.
  intros E Hu.
  destruct (add_rating_cases S req rid ruid sc cm db) as [[_ H] | [H _]];
    rewrite E in *; simpl in *; [| congruence].
  destruct H as (user & _ & _ & _ & Husers).
  rewrite Husers, lookup_alter_eq in Hu.
  destruct (users db !! ruid) as [u0|]; simpl in Hu; [| discriminate].
  injection Hu as <-. reflexivity.
Qed.

Lemma scores_received_other rt id row uid :
  rt !! id = None -> rated_user_id row <> uid ->
  scores_received (<[id := row]> rt) uid ≡ₚ scores_received rt uid.
Proof.
  intros Hnone Hne. rewrite (scores_received_insert rt id row uid Hnone).
  destruct (decide (rated_user_id row = uid)); [contradiction | reflexivity].
Qed.

(** Whatever the call answers, it keeps the trust scores in step with
    the rating table. *)
Lemma add_rating_keeps_trust_consistent S req rid ruid sc cm db :
  ratings db !! rating_seq db = None ->
  trust_consistent db ->
  trust_consistent (snd (add_rating S req rid ruid sc cm db)).
Proof.
  intros Hfresh Hcons.
  destruct (add_rating_cases S req rid ruid sc cm db)
    as [[_ (user & _ & _ & Hrat & Husers)] | [_ [Hrat Husers]]];
    intros uid u Hu Hne.
  - rewrite Husers in Hu.
    destruct (decide (ruid = uid)) as [<- | Hother].
    + rewrite lookup_alter_eq in Hu.
      destruct (users db !! ruid) as [u0|]; simpl in Hu; [| discriminate].
      injection Hu as <-. reflexivity.
    + rewrite lookup_alter_ne in Hu by assumption.
      rewrite Hrat in Hne |- *.
      assert (Hp := scores_received_other (ratings db) (rating_seq db)
                      {| reservation_id := rid; rater_id := s_user_id user;
                         rated_user_id := ruid; score := sc; comment := cm |}
                      uid Hfresh Hother).
      rewrite (mean_Permutation _ _ Hp). apply (Hcons uid u Hu).
      intros E. apply Hne. rewrite E in Hp. apply Permutation_nil_r in Hp. exact Hp.
  - rewrite Husers in Hu. rewrite Hrat in Hne |- *. exact (Hcons uid u Hu Hne).
Qed.

(** C6.  After a rating is recorded, the trust score of the rated user
    is the arithmetic mean of all the scores in the rating table that
    were given to that user, and whatever a call answers, the trust
    scores of all rated users stay equal to the mean of the scores they
    received.  Starting from a user without ratings, the scores 5, 4 and
    3 give a trust score of exactly 4, and a fourth score of 2 gives
    7/2. *)
Theorem trust_score_is_mean :
  (forall S req rid ruid sc cm db db' u,
      add_rating S req rid ruid sc cm db = (RatingSubmitted, db') ->
      users db' !! ruid = Some u ->
      trust_score u = mean (scores_received (ratings db') ruid)
      /\ (trust_score u
          == inject_Z (sum_scores (scores_received (ratings db') ruid))
             / inject_Z (Z.of_nat (length (scores_received (ratings db') ruid))))%Q)
  /\ (forall S req rid ruid sc cm db,
        ratings db !! rating_seq db = None ->
        trust_consistent db ->
        trust_consistent (snd (add_rating S req rid ruid sc cm db)))
  /\ (scores_received (ratings Ex.db_r3) 1 ≡ₚ [5; 4; 3]
      /\ trust_score <$> users Ex.db_r3 !! 1 = Some 4%Q)
  /\ (scores_received (ratings Ex.db_r4) 1 ≡ₚ [5; 4; 3; 2]
      /\ trust_score <$> users Ex.db_r4 !! 1 = Some (7 # 2)%Q).
Proof.
  split.
  { intros S req rid ruid sc cm db db' u E Hu.
    pose proof (add_rating_submitted S req rid ruid sc cm db db' u E Hu) as Hm.
    split; [exact Hm |]. rewrite Hm. apply mean_spec. }
  split; [exact add_rating_keeps_trust_consistent |].
  split; (split; [| vm_compute; reflexivity]).
  - apply (bool_decide_unpack _). vm_compute. exact I.
  - apply (bool_decide_unpack _). vm_compute. exact I.
Qed.

Lemma trust_score_is_mean_witness :
  trust_score (set_trust_score 4 Ex.alice)
  = mean (scores_received (ratings Ex.db_r3) 1)
  /\ trust_consistent Ex.db_r1.
Proof.
  split.
  - apply (proj1 trust_score_is_mean Ex.sessions Ex.as_bob 9 1 3 "fine"
             Ex.db_r2 Ex.db_r3 (set_trust_score 4 Ex.alice)).
    + vm_compute. reflexivity.
    + vm_compute. reflexivity.
  - apply (proj1 (proj2 trust_score_is_mean) Ex.sessions Ex.as_bob 7 1 5 "great" Ex.db0).
    + reflexivity.
    + intros uid u _ Hne. destruct Hne. reflexivity.
Defined.

(** ** Login *)

Lemma select_user_registered db uid u :
  users db !! uid = Some u ->
  exists result, select_user_by_username db (username u) = Some result
                 /\ users db !! result.1 = Some result.2
                 /\ username result.2 = username u.
Proof.
  intros Hu. unfold select_user_by_username.
  destruct (List.find _ (map_to_list (users db))) as [result|] eqn:E.
  - exists result. split; [reflexivity |].
    apply List.find_some in E. destruct E as [Hin Heq].
    apply list_elem_of_In in Hin. destruct result as [i x].
    apply elem_of_map_to_list in Hin. simpl in *.
    split; [exact Hin |]. apply String.eqb_eq, Heq.
  - exfalso.
    assert (Hin : List.In (uid, u) (map_to_list (users db))).
    { apply list_elem_of_In, elem_of_map_to_list, Hu. }
    apply (List.find_none _ _ E) in Hin. simpl in Hin.
    rewrite String.eqb_refl in Hin. discriminate.
Qed.

(** C10.  [login] never looks at the password.  Its answer is the same
    for any two passwords, and for the username of a registered user
    every call succeeds: it redirects to the dashboard with a new
    session cookie and stores, under that cookie, a session that
    carries the key, the username and the role of a user row with that
    username (the row of that user when the username is unique) and the
    row's trust score, 0 standing for a score of zero; that session is
    what [get_current_user] then returns for the cookie. *)
Theorem login_ignores_password :
  (forall S db p_username password1 password2 uuid4,
      login S db p_username password1 uuid4 = login S db p_username password2 uuid4)
  /\ (forall db uid u,
        users db !! uid = Some u ->
        exists uid' u',
          users db !! uid' = Some u'
          /\ username u' = username u
          /\ ((forall j v, users db !! j = Some v -> username v = username u ->
                           j = uid) ->
              uid' = uid /\ u' = u)
          /\ forall S password uuid4,
               login S db (username u) password uuid4
               = (RedirectDashboard uuid4,
                  <[uuid4 := {| s_user_id := uid';
                                s_username := username u';
                                s_role := role u';
                                s_trust_score :=
                                  if Qeq_bool (trust_score u') 0 then 0%Q
                                  else trust_score u' |}]> S)
               /\ (uuid4 <> "" ->
                   get_current_user (snd (login S db (username u) password uuid4))
                                    {| cookie_session_id := Some uuid4 |}
                   = Some {| s_user_id := uid';
                             s_username := username u';
                             s_role := role u';
                             s_trust_score :=
                               if Qeq_bool (trust_score u') 0 then 0%Q
                               else trust_score u' |})).
Proof.
  split; [reflexivity |].
  intros db uid u Hu.
  destruct (select_user_registered db uid u Hu)
    as ([uid' u'] & Hsel & Hrow & Hname).
  simpl in Hrow, Hname.
  exists uid', u'. split; [exact Hrow |]. split; [exact Hname |].
  split.
  { intros Huniq. pose proof (Huniq uid' u' Hrow Hname) as ->.
    split; [reflexivity | congruence]. }
  intros S password uuid4.
  assert (E : login S db (username u) password uuid4
              = (RedirectDashboard uuid4,
                 <[uuid4 := {| s_user_id := uid';
                               s_username := username u';
                               s_role := role u';
                               s_trust_score :=
                                 if Qeq_bool (trust_score u') 0 then 0%Q
                                 else trust_score u' |}]> S)).
  { unfold login. rewrite Hsel. reflexivity. }
  split; [exact E |].
  intros Hne. rewrite E. unfold get_current_user. simpl.
  apply String.eqb_neq in Hne. rewrite Hne. apply lookup_insert_eq.
Qed.

Lemma login_ignores_password_witness :
  login Ex.sessions Ex.db0 "alice" "secret" "c0ffee"
  = (RedirectDashboard "c0ffee",
     <[ "c0ffee" := {| s_user_id := 1; s_username := "alice";
                       s_role := "user"; s_trust_score := 0 |} ]> Ex.sessions)
  /\ login Ex.sessions Ex.db0 "alice" "wrong password" "c0ffee"
     = (RedirectDashboard "c0ffee",
        <[ "c0ffee" := {| s_user_id := 1; s_username := "alice";
                          s_role := "user"; s_trust_score := 0 |} ]> Ex.sessions).
Proof.
  destruct (proj2 login_ignores_password Ex.db0 1 Ex.alice eq_refl)
    as (uid' & u' & Hrow & Hname & Huniq & Hlogin).
  destruct Huniq as [-> ->].
  { intros j v Hj Hv. apply (elem_of_map_to_list (users Ex.db0)) in Hj.
    vm_compute in Hj. apply list_elem_of_In in Hj. simpl in Hj.
    destruct Hj as [Hj | [Hj | []]]; injection Hj as <- <-;
      [discriminate | reflexivity]. }
  split.
  - exact (proj1 (Hlogin Ex.sessions "secret" "c0ffee")).
  - exact (proj1 (Hlogin Ex.sessions "wrong password" "c0ffee")).
Defined.

(** * Properties of the other routes and queries *)

(** ** Sessions *)

Lemma get_current_user_none S req :
  get_current_user S req = None
  <-> cookie_session_id req = None
      \/ cookie_session_id req = Some ""
      \/ exists sid, cookie_session_id req = Some sid /\ S !! sid = None.
Proof.
  unfold get_current_user. destruct (cookie_session_id req) as [sid|].
  - destruct (String.eqb sid "") eqn:E.
    + apply String.eqb_eq in E. subst. split; [auto | reflexivity].
    + split.
      * intros H. right. right. eauto.
      * intros [H | [H | (sid' & H & Hn)]]; try discriminate.
        -- injection H as ->. discriminate.
        -- injection H as ->. exact Hn.
  - split; [auto | reflexivity].
Qed.

Lemma select_user_none db p_username :
  select_user_by_username db p_username = None
  <-> forall uid u, users db !! uid = Some u -> username u <> p_username.
Proof.
  unfold select_user_by_username. split.
  - intros E uid u Hu Hname.
    assert (Hin : List.In (uid, u) (map_to_list (users db))).
    { apply list_elem_of_In, elem_of_map_to_list, Hu. }
    apply (List.find_none _ _ E) in Hin. simpl in Hin.
    apply String.eqb_neq in Hin. contradiction.
  - intros Hno.
    destruct (List.find _ (map_to_list (users db))) as [[i x]|] eqn:E; [| reflexivity].
    apply List.find_some in E. destruct E as [Hin Heq].
    apply list_elem_of_In, elem_of_map_to_list in Hin. simpl in *.
    apply String.eqb_eq in Heq. destruct (Hno i x Hin Heq).
Qed.

(** X1.  [login] succeeds exactly for the usernames found in the user
    table.  For any other username it answers with the invalid-login
    redirect and leaves the session store as it is; and a successful
    login touches no session but the new one. *)
Theorem login_succeeds_iff_registered S db p_username password uuid4 :
  (fst (login S db p_username password uuid4) = RedirectDashboard uuid4
   <-> exists uid u, users db !! uid = Some u /\ username u = p_username)
  /\ ((forall uid u, users db !! uid = Some u -> username u <> p_username) ->
      login S db p_username password uuid4 = (InvalidUsernameOrPassword, S))
  /\ (forall sid, sid <> uuid4 ->
      snd (login S db p_username password uuid4) !! sid = S !! sid).
Proof.
  unfold login.
  destruct (select_user_by_username db p_username) as [result|] eqn:E.
  - split; [| split].
    + split; [| reflexivity]. intros _.
      unfold select_user_by_username in E. apply List.find_some in E.
      destruct E as [Hin Heq]. destruct result as [i x].
      apply list_elem_of_In, elem_of_map_to_list in Hin.
      apply String.eqb_eq in Heq. eauto.
    + intros Hno. apply select_user_none in Hno. congruence.
    + intros sid Hne. simpl. apply lookup_insert_ne. congruence.
  - split; [| split].
    + split; [discriminate |].
      intros (uid & u & Hu & Hname).
      destruct (proj1 (select_user_none db p_username) E uid u Hu Hname).
    + reflexivity.
    + reflexivity.
Qed.

Lemma login_succeeds_iff_registered_witness :
  login Ex.sessions Ex.db0 "carol" "secret" "c0ffee"
  = (InvalidUsernameOrPassword, Ex.sessions).
Proof.
  apply (proj1 (proj2 (login_succeeds_iff_registered
                         Ex.sessions Ex.db0 "carol" "secret" "c0ffee"))).
  intros uid u Hu.
  apply (elem_of_map_to_list (users Ex.db0)) in Hu.
  vm_compute in Hu.
  apply list_elem_of_In in Hu. simpl in Hu.
  destruct Hu as [Hu | [Hu | []]]; injection Hu as _ <-; discriminate.
Defined.

(** X2.  [logout] ends the session of the request's cookie and no
    other: afterwards the cookie no longer authenticates and
    [require_login] raises 401, requests with another cookie are served
    as before, and a request that had no session leaves the store
    untouched. *)
Theorem logout_ends_only_own_session S req :
  get_current_user (logout S req) req = None
  /\ require_login (logout S req) req = inl (HTTPException 401 "Please login first")
  /\ (forall req', cookie_session_id req' <> cookie_session_id req ->
        get_current_user (logout S req) req' = get_current_user S req')
  /\ (get_current_user S req = None -> logout S req = S).
Proof.
  assert (H1 : get_current_user (logout S req) req = None).
  { unfold logout, get_current_user.
    destruct (cookie_session_id req) as [sid|]; [| reflexivity].
    destruct (String.eqb sid ""); [reflexivity |].
    destruct (S !! sid) eqn:E; [apply lookup_delete_eq | exact E]. }
  split; [exact H1 |]. split.
  { unfold require_login. rewrite H1. reflexivity. }
  split.
  - intros req' Hne. unfold logout, get_current_user.
    destruct (cookie_session_id req) as [sid|]; [| reflexivity].
    destruct (String.eqb sid ""); [reflexivity |].
    destruct (S !! sid); [| reflexivity].
    destruct (cookie_session_id req') as [sid'|]; [| reflexivity].
    destruct (String.eqb sid' ""); [reflexivity |].
    apply lookup_delete_ne. congruence.
  - unfold logout, get_current_user.
    destruct (cookie_session_id req) as [sid|]; [| reflexivity].
    destruct (String.eqb sid ""); [reflexivity |].
    intros ->. reflexivity.
Qed.

Lemma logout_ends_only_own_session_witness :
  logout Ex.sessions {| cookie_session_id := Some "sid-carol" |} = Ex.sessions.
Proof.
  apply (proj2 (proj2 (proj2 (logout_ends_only_own_session
                                Ex.sessions
                                {| cookie_session_id := Some "sid-carol" |})))).
  reflexivity.
Defined.

(** X3.  Logging in and then out with the cookie that login handed out
    gives back the session store as it was, whether or not the login
    succeeded, as long as the new session id is not empty and was not in
    use. *)
Theorem login_then_logout_restores_sessions S db p_username password uuid4 :
  uuid4 <> "" ->
  S !! uuid4 = None ->
  logout (snd (login S db p_username password uuid4))
         {| cookie_session_id := Some uuid4 |} = S.
Proof.
  intros Hne Hfree. unfold logout, login. simpl.
  apply String.eqb_neq in Hne. rewrite Hne.
  destruct (select_user_by_username db p_username) as [result|]; simpl.
  - rewrite lookup_insert_eq, delete_insert_eq. apply delete_id, Hfree.
  - rewrite Hfree. reflexivity.
Qed.

Lemma login_then_logout_restores_sessions_witness :
  logout (snd (login Ex.sessions Ex.db0 "alice" "anything" "c0ffee"))
         {| cookie_session_id := Some "c0ffee" |} = Ex.sessions.
Proof.
  apply (login_then_logout_restores_sessions Ex.sessions Ex.db0
           "alice" "anything" "c0ffee").
  - discriminate.
  - reflexivity.
Defined.

(** X4.  A request without a valid session (no cookie, an empty cookie,
    or a cookie that is not in the store) never writes: every route
    that writes to the database answers with its login or admin
    redirect and returns the database unchanged. *)
Theorem anonymous_requests_do_not_write S req :
  (cookie_session_id req = None
   \/ cookie_session_id req = Some ""
   \/ exists sid, cookie_session_id req = Some sid /\ S !! sid = None) ->
  forall db,
    (forall t a b now, add_reservation S req t a b now db = (LoginRequired, db))
    /\ (forall rid st now,
          update_reservation_status S req rid st now db = (LoginRequired, db))
    /\ (forall rid, delete_reservation S req rid db = (LoginRequired, db))
    /\ (forall rid ruid sc cm, add_rating S req rid ruid sc cm db = (LoginRequired, db))
    /\ (forall n d c id st, add_tool S req n d c id st db = (ToolLoginRequired, db))
    /\ (forall t, delete_tool S req t db = (ToolLoginRequired, db))
    /\ (forall t n d c st, update_tool S req t n d c st db = (ToolLoginRequired, db))
    /\ (forall uid, admin_delete_user S req uid db = (AdminAccessRequired, db)).
Proof.
  intros Hanon db. apply get_current_user_none in Hanon.
  unfold add_reservation, update_reservation_status, delete_reservation,
    add_rating, add_tool, delete_tool, update_tool, admin_delete_user.
  rewrite Hanon. repeat split.
Qed.

Lemma anonymous_requests_do_not_write_witness :
  add_reservation Ex.sessions {| cookie_session_id := Some "sid-carol" |}
                  1 1 5 100 Ex.db0 = (LoginRequired, Ex.db0)
  /\ delete_reservation Ex.sessions {| cookie_session_id := Some "" |} 1 Ex.db_A
     = (LoginRequired, Ex.db_A).
Proof.
  split.
  - apply (anonymous_requests_do_not_write Ex.sessions
             {| cookie_session_id := Some "sid-carol" |}).
    right. right. exists "sid-carol". split; reflexivity.
  - apply (anonymous_requests_do_not_write Ex.sessions
             {| cookie_session_id := Some "" |}).
    right. left. reflexivity.
Defined.

(** ** More on the reservation routes *)

(** X5.  Only the borrower or an admin deletes a reservation.  For any
    other user, the owner of the tool included, [delete_reservation]
    matches no row: it answers as a success and the database is as
    before. *)
Theorem delete_by_other_user_is_noop S req rid db user :
  get_current_user S req = Some user ->
  is_admin_role user = false ->
  (forall r, reservations db !! rid = Some r -> borrower_id r <> s_user_id user) ->
  delete_reservation S req rid db = (ReservationCancelled, db).
Proof.
  intros Hu Ha Hno. unfold delete_reservation, delete_reservation_row.
  rewrite Hu, Ha.
  destruct (reservations db !! rid) as [r|] eqn:Hr; [| reflexivity].
  rewrite orb_false_r.
  destruct (borrower_id r =? s_user_id user) eqn:E; [| reflexivity].
  apply Z.eqb_eq in E. destruct (Hno r eq_refl E).
Qed.

Lemma delete_by_other_user_is_noop_witness :
  delete_reservation Ex.sessions Ex.as_alice 1 Ex.db_A
  = (ReservationCancelled, Ex.db_A).
Proof.
  apply (delete_by_other_user_is_noop Ex.sessions Ex.as_alice 1 Ex.db_A
           {| s_user_id := 1; s_username := "alice";
              s_role := "user"; s_trust_score := 0 |}).
  - reflexivity.
  - reflexivity.
  - intros r Hr. vm_compute in Hr. injection Hr as <-. simpl. lia.
Defined.

(** X6.  When the borrower or an admin deletes a reservation to which
    no rating refers, that row and no other leaves the reservation
    table; the other tables are not written. *)
Theorem delete_removes_exactly_that_row S req rid db user r :
  get_current_user S req = Some user ->
  reservations db !! rid = Some r ->
  borrower_id r = s_user_id user \/ is_admin_role user = true ->
  (forall k rt, ratings db !! k = Some rt -> reservation_id rt <> rid) ->
  fst (delete_reservation S req rid db) = ReservationCancelled
  /\ reservations (snd (delete_reservation S req rid db)) !! rid = None
  /\ (forall j, j <> rid ->
        reservations (snd (delete_reservation S req rid db)) !! j
        = reservations db !! j)
  /\ Datatypes.S (size (reservations (snd (delete_reservation S req rid db))))
     = size (reservations db)
  /\ users (snd (delete_reservation S req rid db)) = users db
  /\ tools (snd (delete_reservation S req rid db)) = tools db
  /\ ratings (snd (delete_reservation S req rid db)) = ratings db.
Proof.
  intros Hu Hr Hmay _. unfold delete_reservation, delete_reservation_row.
  rewrite Hu, Hr.
  assert (E : (borrower_id r =? s_user_id user) || is_admin_role user = true).
  { apply orb_true_iff. rewrite Z.eqb_eq. exact Hmay. }
  rewrite E. simpl. split; [reflexivity |].
  split; [apply lookup_delete_eq |].
  split; [intros j Hj; apply lookup_delete_ne; congruence |].
  split; [| repeat split].
  rewrite (map_size_delete_Some rid (reservations db)) by eauto.
  assert (size (reservations db) <> 0)%nat.
  { apply map_size_non_empty_iff. intros Hempty. rewrite Hempty in Hr.
    rewrite lookup_empty in Hr. discriminate. }
  lia.
Qed.

Lemma delete_removes_exactly_that_row_witness :
  fst (delete_reservation Ex.sessions Ex.as_bob 1 Ex.db_AB) = ReservationCancelled
  /\ reservations (snd (delete_reservation Ex.sessions Ex.as_bob 1 Ex.db_AB)) !! 1 = None
  /\ reservations (snd (delete_reservation Ex.sessions Ex.as_bob 1 Ex.db_AB)) !! 2
     = reservations Ex.db_AB !! 2.
Proof.
  destruct (delete_removes_exactly_that_row Ex.sessions Ex.as_bob 1 Ex.db_AB
              Ex.bob_session (new_row Ex.bob_session 1 1 5 100))
    as (H1 & H2 & H3 & _).
  - reflexivity.
  - reflexivity.
  - left. reflexivity.
  - intros k rt Hk. vm_compute in Hk. discriminate.
  - split; [exact H1 |]. split; [exact H2 |]. apply H3. lia.
Defined.

(** X7.  [update_reservation_status] writes at most the status and the
    last-modified instant of the one row it is called for: no row is
    added or removed, every other row is as before, the tool, borrower
    and interval of the row stay, and the other tables and the two
    sequences are not written. *)
Theorem update_status_writes_only_status S req rid st now db :
  users (snd (update_reservation_status S req rid st now db)) = users db
  /\ tools (snd (update_reservation_status S req rid st now db)) = tools db
  /\ ratings (snd (update_reservation_status S req rid st now db)) = ratings db
  /\ reservation_seq (snd (update_reservation_status S req rid st now db))
     = reservation_seq db
  /\ rating_seq (snd (update_reservation_status S req rid st now db))
     = rating_seq db
  /\ (forall j, j <> rid ->
        reservations (snd (update_reservation_status S req rid st now db)) !! j
        = reservations db !! j)
  /\ match reservations db !! rid with
     | None =>
         reservations (snd (update_reservation_status S req rid st now db)) !! rid
         = None
     | Some r =>
         reservations (snd (update_reservation_status S req rid st now db)) !! rid
         = Some r
         \/ reservations (snd (update_reservation_status S req rid st now db)) !! rid
            = Some (updated_row r st now)
     end.
Proof.
  unfold update_reservation_status.
  destruct (get_current_user S req) as [user|].
  2:{ simpl. repeat split. destruct (reservations db !! rid); auto. }
  pose proof (update_reservation_cases db rid st (s_user_id user)
                (is_admin_role user) now) as Hc.
  destruct (update_reservation _ _ _ _ _ _) as [msg | db'].
  { simpl. repeat split. destruct (reservations db !! rid); auto. }
  destruct Hc as [-> | (r & Hr & _ & -> & _)].
  { simpl. repeat split. destruct (reservations db !! rid); auto. }
  simpl. repeat split.
  - intros j Hj. apply lookup_insert_ne. congruence.
  - rewrite Hr. right. apply lookup_insert_eq.
Qed.

Lemma has_conflict_insert rs id row t a b :
  rs !! id = None ->
  has_conflict (<[id := row]> rs) t a b
  <-> has_conflict rs t a b
      \/ (tool_id row = t /\ is_active (status row) = true
          /\ start_date row < b /\ end_date row > a).
Proof.
  intros Hnone. unfold has_conflict. split.
  - intros (i & r & Hi & H). apply lookup_insert_Some in Hi.
    destruct Hi as [[_ <-] | [_ Hi]]; [right; exact H | left; eauto].
  - intros [(i & r & Hi & H) | H].
    + exists i, r. split; [| exact H].
      rewrite lookup_insert_ne by congruence. exact Hi.
    + exists id, row. split; [apply lookup_insert_eq | exact H].
Qed.

Lemma seq_fresh_after_insert db row :
  seq_fresh db ->
  seq_fresh (set_reservations (<[reservation_seq db := row]> (reservations db))
                              (snd (nextval_reservation db))).
Proof.
  intros Hf i Hi. simpl in *. rewrite lookup_insert_ne by lia. apply Hf. lia.
Qed.

(** X8.  Deleting an active reservation frees its interval: in a
    reachable state, once the borrower or an admin has deleted it, any
    logged-in user who does not own the tool can book the same tool for
    the same interval. *)
Theorem deleted_interval_can_be_rebooked S1 req1 S2 req2 rid now db user1 user2 r :
  reachable db ->
  reservations db !! rid = Some r ->
  is_active (status r) = true ->
  get_current_user S1 req1 = Some user1 ->
  borrower_id r = s_user_id user1 \/ is_admin_role user1 = true ->
  get_current_user S2 req2 = Some user2 ->
  owns db (tool_id r) user2 = false ->
  fst (add_reservation S2 req2 (tool_id r) (start_date r) (end_date r) now
         (snd (delete_reservation S1 req1 rid db)))
  = ReservationCreated.
Proof.
  intros Hreach Hr Hact Hu1 Hmay Hu2 Hown.
  destruct (reachable_ledger_ok db Hreach) as [Hf Hinv].
  unfold delete_reservation, delete_reservation_row. rewrite Hu1, Hr.
  assert (E : (borrower_id r =? s_user_id user1) || is_admin_role user1 = true).
  { apply orb_true_iff. rewrite Z.eqb_eq. exact Hmay. }
  rewrite E. cbn [snd].
  set (db' := set_reservations _ db).
  assert (Hf' : seq_fresh db').
  { intros i Hi. subst db'. simpl in *. apply lookup_delete_None. right.
    apply Hf, Hi. }
  assert (Hno : ~ has_conflict (reservations db')
                  (tool_id r) (start_date r) (end_date r)).
  { intros (i & r2 & Hi & Ht & Ha2 & Hs & He). subst db'. simpl in Hi.
    apply lookup_delete_Some in Hi. destruct Hi as [Hne Hi].
    pose proof (Hinv i rid r2 r Hi Hr ltac:(congruence) Ht Ha2 Hact) as Hov.
    apply overlaps_false in Hov. apply Hov. lia. }
  destruct (add_reservation_no_conflict S2 req2 (tool_id r) (start_date r)
              (end_date r) now db' user2 Hu2 Hf' Hown Hno) as [-> _].
  reflexivity.
Qed.

Lemma deleted_interval_can_be_rebooked_witness :
  fst (add_reservation Ex.sessions Ex.as_bob 1 1 5 300
         (snd (delete_reservation Ex.sessions Ex.as_bob 1 Ex.db_AB)))
  = ReservationCreated.
Proof.
  apply (deleted_interval_can_be_rebooked Ex.sessions Ex.as_bob Ex.sessions Ex.as_bob
           1 300 Ex.db_AB Ex.bob_session Ex.bob_session
           (new_row Ex.bob_session 1 1 5 100)).
  - apply (reachable_step _ (CreateReservation Ex.sessions Ex.as_bob 1 5 10 101)).
    apply (reachable_step _ (CreateReservation Ex.sessions Ex.as_bob 1 1 5 100)).
    apply reachable_init. reflexivity.
  - reflexivity.
  - reflexivity.
  - reflexivity.
  - left. reflexivity.
  - reflexivity.
  - reflexivity.
Defined.

Lemma second_booking_verdict S req t a1 b1 a2 b2 now1 now2 db user :
  get_current_user S req = Some user ->
  seq_fresh db ->
  owns db t user = false ->
  ~ has_conflict (reservations db) t a1 b1 ->
  ~ has_conflict (reservations db) t a2 b2 ->
  fst (add_reservation S req t a2 b2 now2
         (snd (add_reservation S req t a1 b1 now1 db)))
  = if overlaps a1 b1 a2 b2 then BookingConflictError else ReservationCreated.
Proof.
  intros Hu Hf Ho Hc1 Hc2.
  destruct (add_reservation_no_conflict S req t a1 b1 now1 db user Hu Hf Ho Hc1)
    as [-> Hnone].
  cbn [snd]. set (db1 := set_reservations _ _).
  assert (Hf1 : seq_fresh db1) by (apply seq_fresh_after_insert, Hf).
  assert (Hconf : has_conflict (reservations db1) t a2 b2
                  <-> overlaps a1 b1 a2 b2 = true).
  { subst db1. simpl. rewrite (has_conflict_insert _ _ _ t a2 b2 Hnone).
    rewrite overlaps_spec. simpl. split.
    - intros [H | H]; [contradiction | tauto].
    - intros H. right. tauto. }
  destruct (overlaps a1 b1 a2 b2) eqn:E.
  - rewrite (add_reservation_has_conflict S req t a2 b2 now2 db1 user Hu Hf1 Ho);
      [reflexivity | apply Hconf; reflexivity].
  - destruct (add_reservation_no_conflict S req t a2 b2 now2 db1 user Hu Hf1 Ho)
      as [-> _]; [| reflexivity].
    intros H. apply Hconf in H. discriminate.
Qed.

(** X9.  The order of two requests does not decide whether both are
    served: when each of two intervals is free on its own, the second
    request is created exactly when the two do not overlap (first start
    before second end and first end after second start), and refused as
    a booking conflict otherwise, whichever of the two comes first. *)
Theorem booking_order_does_not_matter S req t a1 b1 a2 b2 now1 now2 db user :
  get_current_user S req = Some user ->
  seq_fresh db ->
  owns db t user = false ->
  ~ has_conflict (reservations db) t a1 b1 ->
  ~ has_conflict (reservations db) t a2 b2 ->
  fst (add_reservation S req t a2 b2 now2
         (snd (add_reservation S req t a1 b1 now1 db)))
  = fst (add_reservation S req t a1 b1 now2
           (snd (add_reservation S req t a2 b2 now1 db)))
  /\ (fst (add_reservation S req t a2 b2 now2
             (snd (add_reservation S req t a1 b1 now1 db))) = ReservationCreated
      <-> ~ (a1 < b2 /\ b1 > a2))
  /\ (fst (add_reservation S req t a2 b2 now2
             (snd (add_reservation S req t a1 b1 now1 db))) = BookingConflictError
      <-> a1 < b2 /\ b1 > a2).
Proof.
  intros Hu Hf Ho Hc1 Hc2.
  rewrite (second_booking_verdict S req t a1 b1 a2 b2 now1 now2 db user Hu Hf Ho Hc1 Hc2).
  rewrite (second_booking_verdict S req t a2 b2 a1 b1 now1 now2 db user Hu Hf Ho Hc2 Hc1).
  rewrite (overlaps_sym a2 b2 a1 b1).
  split; [reflexivity |].
  rewrite <- overlaps_spec.
  destruct (overlaps a1 b1 a2 b2); split; split; intros H;
    try discriminate; try reflexivity; try congruence.
Qed.

Lemma booking_order_does_not_matter_witness :
  fst (add_reservation Ex.sessions Ex.as_bob 1 4 6 101
         (snd (add_reservation Ex.sessions Ex.as_bob 1 1 5 100 Ex.db0)))
  = fst (add_reservation Ex.sessions Ex.as_bob 1 1 5 101
           (snd (add_reservation Ex.sessions Ex.as_bob 1 4 6 100 Ex.db0))).
Proof.
  refine (proj1 (booking_order_does_not_matter Ex.sessions Ex.as_bob 1 1 5 4 6 100 101
                   Ex.db0 Ex.bob_session _ _ _ _ _)).
  - reflexivity.
  - apply seq_freshb_sound. reflexivity.
  - reflexivity.
  - apply check_tool_availability_spec. reflexivity.
  - apply check_tool_availability_spec. reflexivity.
Defined.

Lemma check_tool_availability_migrate_false rs t a b :
  check_tool_availability_migrate rs t a b = false
  <-> exists i r, rs !! i = Some r /\ tool_id r = t /\ is_active (status r) = true
                  /\ start_date r <= b /\ end_date r >= a.
Proof.
  unfold check_tool_availability_migrate.
  rewrite Nat.eqb_neq, Nat.neq_0_lt_0, count_pos.
  split; intros (i & r & Hi & HP); exists i, r; (split; [exact Hi |]).
  - simpl in HP. unfold overlaps_migrate in HP.
    rewrite !andb_true_iff, Z.eqb_eq, Z.leb_le, Z.geb_le in HP. intuition lia.
  - simpl. unfold overlaps_migrate.
    rewrite !andb_true_iff, Z.eqb_eq, Z.leb_le, Z.geb_le. intuition lia.
Qed.

(** X10.  The availability check of migrate_db.py errs on the side of
    refusing: whatever it reports as available, the check of
    fix_overlap.py reports as available too.  The two disagree exactly
    when no active reservation of the tool overlaps the candidate but
    one reaches its border; for well-formed intervals that is a
    reservation that ends where the candidate starts or starts where it
    ends. *)
Theorem migrate_check_is_stricter rs t a b :
  (check_tool_availability_migrate rs t a b = true ->
   check_tool_availability rs t a b = true)
  /\ (a < b ->
      (forall i r, rs !! i = Some r -> start_date r < end_date r) ->
      (check_tool_availability rs t a b = true
       /\ check_tool_availability_migrate rs t a b = false)
      <-> (~ has_conflict rs t a b
           /\ exists i r, rs !! i = Some r /\ tool_id r = t
                          /\ is_active (status r) = true
                          /\ (end_date r = a \/ start_date r = b))).
Proof.
  split.
  - intros Hm. apply check_tool_availability_spec.
    intros (i & r & Hi & Ht & Ha & Hs & He).
    assert (Hf : check_tool_availability_migrate rs t a b = false).
    { apply check_tool_availability_migrate_false. exists i, r.
      repeat split; try assumption; lia. }
    congruence.
  - intros Hab Hwf.
    rewrite check_tool_availability_spec, check_tool_availability_migrate_false.
    split.
    + intros [Hno (i & r & Hi & Ht & Ha & Hs & He)]. split; [exact Hno |].
      exists i, r. repeat split; try assumption.
      destruct (Z.eq_dec (end_date r) a) as [| Hne]; [left; assumption |].
      destruct (Z.eq_dec (start_date r) b) as [| Hne']; [right; assumption |].
      exfalso. apply Hno. exists i, r. repeat split; try assumption; lia.
    + intros [Hno (i & r & Hi & Ht & Ha & Hb)]. split; [exact Hno |].
      exists i, r. specialize (Hwf i r Hi).
      repeat split; try assumption; lia.
Qed.

Lemma migrate_check_is_stricter_witness :
  check_tool_availability (reservations Ex.db_A) 1 10 20 = true
  /\ ((check_tool_availability (reservations Ex.db_A) 1 5 10 = true
       /\ check_tool_availability_migrate (reservations Ex.db_A) 1 5 10 = false)
      <-> (~ has_conflict (reservations Ex.db_A) 1 5 10
           /\ exists i r, reservations Ex.db_A !! i = Some r /\ tool_id r = 1
                          /\ is_active (status r) = true
                          /\ (end_date r = 5 \/ start_date r = 10))).
Proof.
  split.
  - apply (proj1 (migrate_check_is_stricter (reservations Ex.db_A) 1 10 20)).
    reflexivity.
  - apply (proj2 (migrate_check_is_stricter (reservations Ex.db_A) 1 5 10)).
    + lia.
    + intros i r Hi. apply (elem_of_map_to_list (reservations Ex.db_A)) in Hi.
      vm_compute in Hi. apply list_elem_of_In in Hi. simpl in Hi.
      destruct Hi as [Hi | []]. injection Hi as _ <-. simpl. lia.
Defined.

(** ** Tools, users and registration *)

(** X11.  Who lists a tool cannot reserve it: after [add_tool] with a
    new key, the tool is stored with the logged-in user as owner, no
    other tool is touched, and every reservation request of that user
    for that tool, whatever the interval, is answered with the
    self-booking error. *)
Theorem lister_cannot_reserve_own_tool S req n d c id st db user :
  get_current_user S req = Some user ->
  tools db !! id = None ->
  fst (add_tool S req n d c id st db) = ToolAdded
  /\ tools (snd (add_tool S req n d c id st db)) !! id
     = Some {| owner_id := s_user_id user; name := n; category := c;
               tool_status := st |}
  /\ (forall j, j <> id ->
        tools (snd (add_tool S req n d c id st db)) !! j = tools db !! j)
  /\ (forall a b now,
        fst (add_reservation S req id a b now (snd (add_tool S req n d c id st db)))
        = SelfBookingError
        /\ reservations
             (snd (add_reservation S req id a b now
                     (snd (add_tool S req n d c id st db))))
           = reservations db).
Proof.
  intros Hu Hnone. unfold add_tool. rewrite Hu, Hnone. cbn [fst snd].
  split; [reflexivity |].
  split; [apply lookup_insert_eq |].
  split; [intros j Hj; apply lookup_insert_ne; congruence |].
  intros a b now.
  rewrite (add_reservation_self S req id a b now _ user Hu).
  - split; reflexivity.
  - unfold owns. simpl. rewrite lookup_insert_eq. simpl. apply Z.eqb_refl.
Qed.

Lemma lister_cannot_reserve_own_tool_witness :
  fst (add_reservation Ex.sessions Ex.as_bob 2 1 5 100
         (snd (add_tool Ex.sessions Ex.as_bob "saw" "a hand saw" "hand tools"
                        2 "available" Ex.db0)))
  = SelfBookingError.
Proof.
  destruct (lister_cannot_reserve_own_tool Ex.sessions Ex.as_bob
              "saw" "a hand saw" "hand tools" 2 "available" Ex.db0 Ex.bob_session)
    as (_ & _ & _ & H).
  - reflexivity.
  - reflexivity.
  - exact (proj1 (H 1 5 100)).
Defined.

(** X12.  [delete_tool] refuses in the open: for a key that is not in
    the tool table it answers not-found, and for a user who is neither
    the owner nor an admin it answers with the ownership error; in both
    cases the database is as before.  No call touches a tool other than
    the one it names. *)
Theorem delete_tool_needs_owner_or_admin S req t db user :
  get_current_user S req = Some user ->
  (tools db !! t = None -> delete_tool S req t db = (ToolNotFound, db))
  /\ (forall tool, tools db !! t = Some tool ->
        owner_id tool <> s_user_id user -> is_admin_role user = false ->
        delete_tool S req t db = (ToolNotYours, db))
  /\ (forall j, j <> t -> tools (snd (delete_tool S req t db)) !! j = tools db !! j).
Proof.
  intros Hu. unfold delete_tool. rewrite Hu. split; [| split].
  - intros ->. reflexivity.
  - intros tool -> Hne Ha. simpl. rewrite Ha.
    apply Z.eqb_neq in Hne. rewrite Hne. reflexivity.
  - intros j Hj. destruct (tools db !! t) as [tool|]; simpl; [| reflexivity].
    destruct (negb _ && negb _); simpl; [reflexivity |].
    apply lookup_delete_ne. congruence.
Qed.

Lemma delete_tool_needs_owner_or_admin_witness :
  delete_tool Ex.sessions Ex.as_bob 1 Ex.db_A = (ToolNotYours, Ex.db_A)
  /\ delete_tool Ex.sessions Ex.as_bob 7 Ex.db_A = (ToolNotFound, Ex.db_A).
Proof.
  split.
  - apply (proj1 (proj2 (delete_tool_needs_owner_or_admin
                           Ex.sessions Ex.as_bob 1 Ex.db_A Ex.bob_session eq_refl))
             Ex.drill).
    + reflexivity.
    + simpl. lia.
    + reflexivity.
  - apply (proj1 (delete_tool_needs_owner_or_admin
                    Ex.sessions Ex.as_bob 7 Ex.db_A Ex.bob_session eq_refl)).
    reflexivity.
Defined.

(** X13.  [update_tool] never changes who owns a tool, and adds or
    removes none, so the trigger's owner test gives the same answer
    before and after.  For a user who is neither the owner nor an admin
    the update matches no row: the route still answers as a success and
    the database is as before.  For the owner or an admin the row takes
    the new name, category and status. *)
Theorem update_tool_keeps_owner S req t n d c st db :
  (forall j, owner_id <$> tools (snd (update_tool S req t n d c st db)) !! j
             = owner_id <$> tools db !! j)
  /\ (forall j user, owns (snd (update_tool S req t n d c st db)) j user = owns db j user)
  /\ (forall j, j <> t ->
        tools (snd (update_tool S req t n d c st db)) !! j = tools db !! j)
  /\ (forall user tool,
        get_current_user S req = Some user -> tools db !! t = Some tool ->
        owner_id tool <> s_user_id user -> is_admin_role user = false ->
        update_tool S req t n d c st db = (ToolUpdated, db))
  /\ (forall user tool,
        get_current_user S req = Some user -> tools db !! t = Some tool ->
        owner_id tool = s_user_id user \/ is_admin_role user = true ->
        tools (snd (update_tool S req t n d c st db)) !! t
        = Some {| owner_id := owner_id tool; name := n; category := c;
                  tool_status := st |}).
Proof.
  assert (Hown : forall j, owner_id <$> tools (snd (update_tool S req t n d c st db)) !! j
                           = owner_id <$> tools db !! j).
  { intros j. unfold update_tool.
    destruct (get_current_user S req) as [user|]; [| reflexivity].
    destruct (tools db !! t) as [tool|] eqn:Ht; [| reflexivity].
    destruct (_ || _); [| reflexivity]. simpl.
    destruct (decide (t = j)) as [<- | Hne].
    - rewrite lookup_insert_eq, Ht. reflexivity.
    - rewrite lookup_insert_ne by assumption. reflexivity. }
  split; [exact Hown |].
  split; [intros j user; unfold owns; rewrite Hown; reflexivity |].
  split; [| split].
  - intros j Hj. unfold update_tool.
    destruct (get_current_user S req) as [user|]; [| reflexivity].
    destruct (tools db !! t) as [tool|]; [| reflexivity].
    destruct (_ || _); [| reflexivity]. simpl.
    apply lookup_insert_ne. congruence.
  - intros user tool Hu Ht Hne Ha. unfold update_tool. rewrite Hu, Ht, Ha.
    apply Z.eqb_neq in Hne. rewrite Hne. reflexivity.
  - intros user tool Hu Ht Hmay. unfold update_tool. rewrite Hu, Ht.
    assert (E : (owner_id tool =? s_user_id user) || is_admin_role user = true).
    { apply orb_true_iff. rewrite Z.eqb_eq. exact Hmay. }
    rewrite E. simpl. apply lookup_insert_eq.
Qed.

Lemma update_tool_keeps_owner_witness :
  update_tool Ex.sessions Ex.as_bob 1 "mine now" "" "" "unavailable" Ex.db_A
  = (ToolUpdated, Ex.db_A)
  /\ tools (snd (update_tool Ex.sessions Ex.as_alice 1 "drill" "" "power tools"
                   "unavailable" Ex.db_A)) !! 1
     = Some {| owner_id := 1; name := "drill"; category := "power tools";
               tool_status := "unavailable" |}.
Proof.
  split.
  - apply (proj1 (proj2 (proj2 (proj2 (update_tool_keeps_owner
             Ex.sessions Ex.as_bob 1 "mine now" "" "" "unavailable" Ex.db_A))))
             Ex.bob_session Ex.drill).
    + reflexivity.
    + reflexivity.
    + simpl. lia.
    + reflexivity.
  - apply (proj2 (proj2 (proj2 (proj2 (update_tool_keeps_owner
             Ex.sessions Ex.as_alice 1 "drill" "" "power tools" "unavailable"
             Ex.db_A))))
             Ex2.alice_session Ex.drill).
    + reflexivity.
    + reflexivity.
    + left. reflexivity.
Defined.

(** X14.  [admin_delete_user] is for admins, and not for deleting
    oneself: a logged-in user whose role is not admin gets the
    admin-required answer, an admin who names their own id gets the
    cannot-delete-yourself answer, and in both cases the database is as
    before.  No call removes the row of the user who makes it, nor any
    row but the one it names. *)
Theorem admin_delete_user_guards S req uid db user :
  get_current_user S req = Some user ->
  (is_admin_role user = false ->
   admin_delete_user S req uid db = (AdminAccessRequired, db))
  /\ (is_admin_role user = true -> uid = s_user_id user ->
      admin_delete_user S req uid db = (CannotDeleteYourself, db))
  /\ users (snd (admin_delete_user S req uid db)) !! s_user_id user
     = users db !! s_user_id user
  /\ (forall j, j <> uid ->
        users (snd (admin_delete_user S req uid db)) !! j = users db !! j).
Proof.
  intros Hu. unfold admin_delete_user. rewrite Hu.
  split; [intros ->; reflexivity |].
  split; [intros -> ->; rewrite Z.eqb_refl; reflexivity |].
  split.
  - destruct (is_admin_role user); simpl; [| reflexivity].
    destruct (uid =? s_user_id user) eqn:E; simpl; [reflexivity |].
    apply Z.eqb_neq in E. apply lookup_delete_ne. exact E.
  - intros j Hj. destruct (is_admin_role user); simpl; [| reflexivity].
    destruct (uid =? s_user_id user); simpl; [reflexivity |].
    apply lookup_delete_ne. congruence.
Qed.

Lemma admin_delete_user_guards_witness :
  admin_delete_user Ex.sessions Ex.as_bob 1 Ex.db0 = (AdminAccessRequired, Ex.db0)
  /\ admin_delete_user Ex2.sessions Ex2.as_root 9 Ex.db0
     = (CannotDeleteYourself, Ex.db0).
Proof.
  split.
  - apply (proj1 (admin_delete_user_guards Ex.sessions Ex.as_bob 1 Ex.db0
                    Ex.bob_session eq_refl)).
    reflexivity.
  - apply (proj1 (proj2 (admin_delete_user_guards Ex2.sessions Ex2.as_root 9 Ex.db0
                           Ex2.admin_session eq_refl)));
      reflexivity.
Defined.

Lemma users_unique_violation_true db id n e :
  users_unique_violation db id n e = true
  <-> is_Some (users db !! id)
      \/ exists i u, users db !! i = Some u /\ (username u = n \/ email u = e).
Proof.
  unfold users_unique_violation.
  rewrite orb_true_iff, bool_decide_eq_true, existsb_exists.
  split; (intros [H | H]; [left; exact H | right]).
  - destruct H as ([i u] & Hin & Hor).
    apply list_elem_of_In, elem_of_map_to_list in Hin. simpl in Hor.
    rewrite orb_true_iff, !String.eqb_eq in Hor. eauto.
  - destruct H as (i & u & Hu & Hor). exists (i, u). split.
    + apply list_elem_of_In, elem_of_map_to_list, Hu.
    + simpl. rewrite orb_true_iff, !String.eqb_eq. exact Hor.
Qed.

Lemma register_cases n e pw id ts db :
  (users_unique_violation db id n e = true
   /\ register n e pw id ts db = (UsernameOrEmailExists, db))
  \/ (users_unique_violation db id n e = false
      /\ register n e pw id ts db
         = (RegistrationSuccessful,
            set_users (<[id := {| username := n; email := e; password_hash := pw;
                                  role := "user"; trust_score := ts |}]> (users db))
                      db)).
Proof.
  unfold register, insert_user.
  destruct (users_unique_violation db id n e); [left | right]; split; reflexivity.
Qed.

(** X15.  A registration with a free key, a new username and a new
    email stores the row as given, with role user and the password as
    submitted, and leaves the other rows alone; from then on [login]
    with that username succeeds with any password. *)
Theorem register_then_login n e pw id ts db :
  users db !! id = None ->
  (forall i u, users db !! i = Some u -> username u <> n /\ email u <> e) ->
  fst (register n e pw id ts db) = RegistrationSuccessful
  /\ users (snd (register n e pw id ts db)) !! id
     = Some {| username := n; email := e; password_hash := pw;
               role := "user"; trust_score := ts |}
  /\ (forall j, j <> id ->
        users (snd (register n e pw id ts db)) !! j = users db !! j)
  /\ (forall S password uuid4,
        fst (login S (snd (register n e pw id ts db)) n password uuid4)
        = RedirectDashboard uuid4).
Proof.
  intros Hfree Hnew.
  destruct (register_cases n e pw id ts db) as [[Hv _] | [_ ->]].
  { apply users_unique_violation_true in Hv.
    destruct Hv as [[x Hx] | (i & u & Hu & Hor)]; [congruence |].
    destruct (Hnew i u Hu). tauto. }
  cbn [fst snd]. split; [reflexivity |].
  split; [apply lookup_insert_eq |].
  split; [intros j Hj; apply lookup_insert_ne; congruence |].
  intros S password uuid4. unfold login.
  set (db' := set_users _ db).
  destruct (select_user_registered db' id
              {| username := n; email := e; password_hash := pw;
                 role := "user"; trust_score := ts |}) as (result & Hsel & _).
  { subst db'. simpl. apply lookup_insert_eq. }
  simpl in Hsel. rewrite Hsel. reflexivity.
Qed.

Lemma register_then_login_witness :
  fst (login Ex.sessions
         (snd (register "carol" "carol@example.org" "pw" 3 0 Ex.db0))
         "carol" "not the password" "c0ffee")
  = RedirectDashboard "c0ffee".
Proof.
  destruct (register_then_login "carol" "carol@example.org" "pw" 3 0 Ex.db0)
    as (_ & _ & _ & H).
  - reflexivity.
  - intros i u Hu. apply (elem_of_map_to_list (users Ex.db0)) in Hu.
    vm_compute in Hu. apply list_elem_of_In in Hu. simpl in Hu.
    destruct Hu as [Hu | [Hu | []]]; injection Hu as _ <-; split; discriminate.
  - apply H.
Defined.

(** X16.  Registration keeps usernames and emails unique.  A username
    or an email that is already in the user table makes [register]
    answer username-or-email-exists and leave the database as it is, and
    whatever a call answers, a user table without duplicates stays
    without duplicates. *)
Theorem register_keeps_credentials_unique n e pw id ts db :
  ((exists i u, users db !! i = Some u /\ (username u = n \/ email u = e)) ->
   register n e pw id ts db = (UsernameOrEmailExists, db))
  /\ (credentials_unique db ->
      credentials_unique (snd (register n e pw id ts db))).
Proof.
  split.
  - intros Hdup.
    destruct (register_cases n e pw id ts db) as [[_ E] | [Hv _]]; [exact E |].
    assert (Ht : users_unique_violation db id n e = true).
    { apply users_unique_violation_true. right. exact Hdup. }
    congruence.
  - intros Huniq.
    destruct (register_cases n e pw id ts db) as [[_ ->] | [Hv ->]]; [exact Huniq |].
    assert (Hno : ~ (is_Some (users db !! id)
                     \/ exists i u, users db !! i = Some u
                                    /\ (username u = n \/ email u = e))).
    { rewrite <- users_unique_violation_true. congruence. }
    intros i j u v Hi Hj Heq. simpl in Hi, Hj.
    apply lookup_insert_Some in Hi. apply lookup_insert_Some in Hj.
    destruct Hi as [[<- <-] | [Hi1 Hi2]]; destruct Hj as [[<- <-] | [Hj1 Hj2]].
    + reflexivity.
    + exfalso. apply Hno. right. exists j, v. simpl in Heq.
      split; [exact Hj2 |]. destruct Heq; [left | right]; congruence.
    + exfalso. apply Hno. right. exists i, u. simpl in Heq.
      split; [exact Hi2 |]. destruct Heq; [left | right]; congruence.
    + exact (Huniq i j u v Hi2 Hj2 Heq).
Qed.

Lemma register_keeps_credentials_unique_witness :
  register "alice" "other@example.org" "pw" 3 0 Ex.db0 = (UsernameOrEmailExists, Ex.db0).
Proof.
  apply (proj1 (register_keeps_credentials_unique
                  "alice" "other@example.org" "pw" 3 0 Ex.db0)).
  exists 1, Ex.alice. split; [reflexivity | left; reflexivity].
Defined.

(** ** The dashboard queries *)

Lemma never_reserved_tools_elem db i n c :
  (i, n, c) ∈ never_reserved_tools db
  <-> exists t, tools db !! i = Some t /\ name t = n /\ category t = c
                /\ forall j r, reservations db !! j = Some r -> tool_id r <> i.
Proof.
  unfold never_reserved_tools.
  rewrite elem_of_remove_dups, list_elem_of_difference, elem_of_remove_dups.
  rewrite list_elem_of_fmap, list_elem_of_bind. split.
  - intros [([i' t] & Heq & Hin) Hnot]. simpl in Heq. injection Heq as -> -> ->.
    apply elem_of_map_to_list in Hin.
    exists t. repeat split; try assumption.
    intros j r Hj Ht. apply Hnot.
    exists (i', t). split; [| apply elem_of_map_to_list, Hin].
    apply list_elem_of_fmap. exists (j, r). split; [reflexivity |].
    apply list_elem_of_filter. split; [exact Ht |].
    apply elem_of_map_to_list, Hj.
  - intros (t & Ht & <- & <- & Hno). split.
    + exists (i, t). split; [reflexivity | apply elem_of_map_to_list, Ht].
    + intros ([i' t'] & Hin & _).
      apply list_elem_of_fmap in Hin. destruct Hin as ([j r] & Heq & Hin).
      simpl in Heq. injection Heq as -> _ _.
      apply list_elem_of_filter in Hin. destruct Hin as [Hti Hin].
      apply elem_of_map_to_list in Hin. exact (Hno j r Hin Hti).
Qed.

(** X17.  The never-reserved list holds each tool at most once, and a
    tool is on it exactly when it is in the tool table and no row of
    the reservation table, whatever its status, refers to it. *)
Theorem never_reserved_tools_spec db :
  NoDup (never_reserved_tools db)
  /\ forall i n c,
       (i, n, c) ∈ never_reserved_tools db
       <-> exists t, tools db !! i = Some t /\ name t = n /\ category t = c
                     /\ forall j r, reservations db !! j = Some r -> tool_id r <> i.
Proof.
  split; [apply NoDup_remove_dups | apply never_reserved_tools_elem].
Qed.

Lemma add_reservation_created_row S req t a b now db :
  fst (add_reservation S req t a b now db) = ReservationCreated ->
  exists user,
    get_current_user S req = Some user
    /\ snd (add_reservation S req t a b now db)
       = set_reservations
           (<[reservation_seq db := new_row user t a b now]> (reservations db))
           (snd (nextval_reservation db)).
Proof.
  unfold add_reservation.
  destruct (get_current_user S req) as [user|]; [| discriminate].
  pose proof (insert_reservation_cases db (new_row user t a b now)) as Hc.
  fold (new_row user t a b now).
  destruct (insert_reservation db (new_row user t a b now)) as [[msg db'] | db'].
  - destruct (PyStr.contains _ _); [discriminate |].
    destruct (PyStr.contains _ _); discriminate.
  - intros _. destruct Hc as [-> _]. exists user. split; reflexivity.
Qed.

(** X18.  A tool leaves the never-reserved list with its first
    reservation and does not come back through a change of status: once
    [add_reservation] has created a reservation, the tool is not on the
    list, and [update_reservation_status] never changes the list. *)
Theorem reserved_tool_leaves_never_reserved :
  (forall S req t a b now db,
      fst (add_reservation S req t a b now db) = ReservationCreated ->
      forall n c,
        (t, n, c) ∉ never_reserved_tools (snd (add_reservation S req t a b now db)))
  /\ (forall S req rid st now db i n c,
        (i, n, c) ∈ never_reserved_tools
                      (snd (update_reservation_status S req rid st now db))
        <-> (i, n, c) ∈ never_reserved_tools db).
Proof.
  split.
  - intros S req t a b now db Hc n c Hin.
    destruct (add_reservation_created_row S req t a b now db Hc) as (user & _ & E).
    rewrite E in Hin. apply never_reserved_tools_elem in Hin.
    destruct Hin as (tool & _ & _ & _ & Hno).
    apply (Hno (reservation_seq db) (new_row user t a b now)); [| reflexivity].
    simpl. apply lookup_insert_eq.
  - intros S req rid st now db i n c.
    rewrite !never_reserved_tools_elem.
    unfold update_reservation_status.
    destruct (get_current_user S req) as [user|]; [| reflexivity].
    pose proof (update_reservation_cases db rid st (s_user_id user)
                  (is_admin_role user) now) as Hc.
    destruct (update_reservation _ _ _ _ _ _) as [msg | db']; [reflexivity |].
    destruct Hc as [-> | (r & Hr & _ & -> & _)]; [reflexivity |].
    simpl. split; intros (tool & Ht & Hn & Hcat & Hno); exists tool;
      (repeat split; try assumption); intros j r' Hj.
    + destruct (decide (j = rid)) as [-> | Hne].
      * assert (r' = r) by congruence. subst r'.
        apply (Hno rid (updated_row r st now)). apply lookup_insert_eq.
      * apply (Hno j r'). rewrite lookup_insert_ne by congruence. exact Hj.
    + apply lookup_insert_Some in Hj. destruct Hj as [[<- <-] | [_ Hj]].
      * apply (Hno rid r Hr).
      * apply (Hno j r' Hj).
Qed.

Lemma reserved_tool_leaves_never_reserved_witness :
  (1, "drill", "power tools") ∈ never_reserved_tools Ex.db0
  /\ (1, "drill", "power tools") ∉ never_reserved_tools Ex.db_A.
Proof.
  split.
  - apply (bool_decide_unpack _). vm_compute. exact I.
  - apply (proj1 reserved_tool_leaves_never_reserved
             Ex.sessions Ex.as_bob 1 1 5 100 Ex.db0).
    reflexivity.
Defined.

Lemma has_rated_true db rid uid :
  has_rated db rid uid = true
  <-> exists k rt, ratings db !! k = Some rt
                   /\ reservation_id rt = rid /\ rater_id rt = uid.
Proof.
  unfold has_rated. rewrite existsb_exists. split.
  - intros ([k rt] & Hin & Hb).
    apply list_elem_of_In, elem_of_map_to_list in Hin. simpl in Hb.
    rewrite andb_true_iff, !Z.eqb_eq in Hb. eauto.
  - intros (k & rt & Hk & Hb). exists (k, rt). split.
    + apply list_elem_of_In, elem_of_map_to_list, Hk.
    + simpl. rewrite andb_true_iff, !Z.eqb_eq. exact Hb.
Qed.

Lemma ratable_reservations_elem db uid row :
  row ∈ ratable_reservations db uid
  <-> exists r t owner borrower,
        reservations db !! rr_reservation_id row = Some r
        /\ tools db !! tool_id r = Some t
        /\ users db !! owner_id t = Some owner
        /\ users db !! borrower_id r = Some borrower
        /\ status r = "completed"
        /\ (borrower_id r = uid \/ owner_id t = uid)
        /\ has_rated db (rr_reservation_id row) uid = false
        /\ rr_tool_name row = name t
        /\ other_user_id row
           = (if borrower_id r =? uid then owner_id t else borrower_id r)
        /\ other_user_name row
           = (if borrower_id r =? uid then username owner else username borrower).
Proof.
  unfold ratable_reservations. rewrite list_elem_of_omap. split.
  - intros ([i r] & Hin & Hrow). apply elem_of_map_to_list in Hin. simpl in Hrow.
    destruct (tools db !! tool_id r) as [t|] eqn:Ht; simpl in Hrow; [| discriminate].
    destruct (users db !! owner_id t) as [owner|] eqn:Ho; simpl in Hrow;
      [| discriminate].
    destruct (users db !! borrower_id r) as [borrower|] eqn:Hb; simpl in Hrow;
      [| discriminate].
    match type of Hrow with (if ?c then _ else _) = _ => destruct c eqn:Hc end;
      [| discriminate].
    injection Hrow as <-. simpl.
    rewrite !andb_true_iff, orb_true_iff, negb_true_iff, String.eqb_eq,
      !Z.eqb_eq in Hc.
    exists r, t, owner, borrower. repeat split; tauto.
  - intros (r & t & owner & borrower & Hr & Ht & Ho & Hb & Hst & Hpart & Hnot
            & Hn & Hid & Hname).
    exists (rr_reservation_id row, r). split; [apply elem_of_map_to_list, Hr |].
    simpl. rewrite Ht. simpl. rewrite Ho. simpl. rewrite Hb. simpl.
    assert (Hc : String.eqb (status r) "completed"
                 && ((borrower_id r =? uid) || (owner_id t =? uid))
                 && negb (has_rated db (rr_reservation_id row) uid) = true).
    { rewrite !andb_true_iff, orb_true_iff, negb_true_iff, String.eqb_eq,
        !Z.eqb_eq. tauto. }
    rewrite Hc. f_equal. destruct row as [i n o on]. simpl in *. congruence.
Qed.

(** X20.  Every row of a user's to-rate list stands for a completed
    reservation in which the user took part, as borrower or as owner of
    the tool, and which the user has not rated; the other party it names
    is the owner of the tool when the user is the borrower and the
    borrower otherwise, so it is never the user whenever borrower and
    owner differ. *)
Theorem ratable_reservations_sound db uid row :
  row ∈ ratable_reservations db uid ->
  exists r t,
    reservations db !! rr_reservation_id row = Some r
    /\ tools db !! tool_id r = Some t
    /\ status r = "completed"
    /\ (borrower_id r = uid \/ owner_id t = uid)
    /\ (forall k rt, ratings db !! k = Some rt ->
          ~ (reservation_id rt = rr_reservation_id row /\ rater_id rt = uid))
    /\ (borrower_id r = uid -> other_user_id row = owner_id t)
    /\ (borrower_id r <> uid -> other_user_id row = borrower_id r)
    /\ (borrower_id r <> owner_id t -> other_user_id row <> uid).
Proof.
  intros Hin. apply ratable_reservations_elem in Hin.
  destruct Hin as (r & t & owner & borrower & Hr & Ht & _ & _ & Hst & Hpart & Hnot
                   & _ & Hid & _).
  exists r, t. repeat split; try assumption.
  - intros k rt Hk Hboth.
    assert (Hyes : has_rated db (rr_reservation_id row) uid = true).
    { apply has_rated_true. exists k, rt. tauto. }
    congruence.
  - intros E. rewrite Hid. apply Z.eqb_eq in E. rewrite E. reflexivity.
  - intros E. rewrite Hid. apply Z.eqb_neq in E. rewrite E. reflexivity.
  - intros Hdiff. rewrite Hid.
    destruct (borrower_id r =? uid) eqn:E.
    + apply Z.eqb_eq in E. congruence.
    + apply Z.eqb_neq in E. exact E.
Qed.

Lemma ratable_reservations_sound_witness :
  exists r t,
    reservations Ex2.db_done !! 1 = Some r
    /\ tools Ex2.db_done !! tool_id r = Some t
    /\ status r = "completed"
    /\ other_user_id {| rr_reservation_id := 1; rr_tool_name := "drill";
                        other_user_id := 1; other_user_name := "alice" |}
       = owner_id t.
Proof.
  destruct (ratable_reservations_sound Ex2.db_done 2
              {| rr_reservation_id := 1; rr_tool_name := "drill";
                 other_user_id := 1; other_user_name := "alice" |})
    as (r & t & Hr & Ht & Hst & Hpart & _ & Hborrower & _).
  - assert (E : ratable_reservations Ex2.db_done 2
                = [{| rr_reservation_id := 1; rr_tool_name := "drill";
                      other_user_id := 1; other_user_name := "alice" |}])
      by (vm_compute; reflexivity).
    rewrite E. apply list_elem_of_singleton. reflexivity.
  - exists r, t. split; [exact Hr |]. split; [exact Ht |]. split; [exact Hst |].
    apply Hborrower. simpl in Hr. vm_compute in Hr. injection Hr as <-. reflexivity.
Defined.

(** X21.  Rating takes a reservation off the rater's to-rate list: after
    a call of [add_rating] that is accepted, the reservation it names
    is no longer on the list of the user who made the call. *)
Theorem rated_reservation_leaves_list S req rid ruid sc cm db user :
  get_current_user S req = Some user ->
  fst (add_rating S req rid ruid sc cm db) = RatingSubmitted ->
  forall row,
    row ∈ ratable_reservations (snd (add_rating S req rid ruid sc cm db))
                               (s_user_id user) ->
    rr_reservation_id row <> rid.
Proof.
  intros Hu Hok row Hin Heq.
  apply ratable_reservations_elem in Hin.
  destruct Hin as (_ & _ & _ & _ & _ & _ & _ & _ & _ & _ & Hnot & _).
  rewrite Heq in Hnot.
  assert (Hyes : has_rated (snd (add_rating S req rid ruid sc cm db))
                           rid (s_user_id user) = true).
  { apply has_rated_true.
    destruct (add_rating_cases S req rid ruid sc cm db)
      as [[_ (user' & Hu' & _ & Hrat & _)] | [Hne _]]; [| contradiction].
    assert (user' = user) by congruence. subst user'.
    eexists _, _. split; [rewrite Hrat; apply lookup_insert_eq |].
    split; reflexivity. }
  congruence.
Qed.

Lemma rated_reservation_leaves_list_witness :
  ratable_reservations Ex2.db_done 2
  = [{| rr_reservation_id := 1; rr_tool_name := "drill";
        other_user_id := 1; other_user_name := "alice" |}]
  /\ forall row, row ∈ ratable_reservations Ex2.db_done_rated 2 ->
                 rr_reservation_id row <> 1.
Proof.
  split; [vm_compute; reflexivity |].
  apply (rated_reservation_leaves_list Ex.sessions Ex.as_bob 1 1 5 "thanks"
           Ex2.db_done Ex.bob_session).
  - reflexivity.
  - reflexivity.
Defined.

(** ** The activity report *)

Lemma date_desc_total : Total date_desc.
Proof. intros x y. unfold date_desc. lia. Qed.

Lemma date_desc_trans : Transitive date_desc.
Proof. intros x y z. unfold date_desc. lia. Qed.

Lemma StronglySorted_lookup {A} (R : relation A) (l : list A) :
  StronglySorted R l ->
  forall i j x y, (i < j)%nat -> l !! i = Some x -> l !! j = Some y -> R x y.
Proof.
  induction 1 as [| a l Hs IH Hall]; intros i j x y Hij Hi Hj.
  - rewrite lookup_nil in Hi. discriminate.
  - destruct j as [| j]; [lia |]. simpl in Hj.
    destruct i as [| i].
    + simpl in Hi. injection Hi as <-.
      rewrite Forall_forall in Hall. apply Hall.
      eapply list_elem_of_lookup_2, Hj.
    + simpl in Hi. apply (IH i j x y); [lia | exact Hi | exact Hj].
Qed.

Lemma borrowed_rows_elem db uid row :
  row ∈ borrowed_rows db uid
  <-> exists i r t owner,
        reservations db !! i = Some r /\ borrower_id r = uid
        /\ tools db !! tool_id r = Some t
        /\ users db !! owner_id t = Some owner
        /\ row = {| activity_type := "borrowed"; ar_tool_name := name t;
                    partner_name := username owner;
                    activity_date := start_date r; ar_status := status r |}.
Proof.
  unfold borrowed_rows. rewrite list_elem_of_omap. split.
  - intros ([i r] & Hin & Hrow). apply elem_of_map_to_list in Hin. simpl in Hrow.
    destruct (tools db !! tool_id r) as [t|] eqn:Ht; simpl in Hrow; [| discriminate].
    destruct (users db !! owner_id t) as [owner|] eqn:Ho; simpl in Hrow;
      [| discriminate].
    destruct (borrower_id r =? uid) eqn:E; [| discriminate].
    apply Z.eqb_eq in E. injection Hrow as <-.
    exists i, r, t, owner. repeat split; assumption.
  - intros (i & r & t & owner & Hr & Hb & Ht & Ho & ->).
    exists (i, r). split; [apply elem_of_map_to_list, Hr |].
    simpl. rewrite Ht. simpl. rewrite Ho. simpl.
    apply Z.eqb_eq in Hb. rewrite Hb. reflexivity.
Qed.

Lemma lent_rows_elem db uid row :
  row ∈ lent_rows db uid
  <-> exists i r t borrower,
        reservations db !! i = Some r
        /\ tools db !! tool_id r = Some t /\ owner_id t = uid
        /\ users db !! borrower_id r = Some borrower
        /\ row = {| activity_type := "lent"; ar_tool_name := name t;
                    partner_name := username borrower;
                    activity_date := start_date r; ar_status := status r |}.
Proof.
  unfold lent_rows. rewrite list_elem_of_omap. split.
  - intros ([i r] & Hin & Hrow). apply elem_of_map_to_list in Hin. simpl in Hrow.
    destruct (tools db !! tool_id r) as [t|] eqn:Ht; simpl in Hrow; [| discriminate].
    destruct (users db !! borrower_id r) as [borrower|] eqn:Hb; simpl in Hrow;
      [| discriminate].
    destruct (owner_id t =? uid) eqn:E; [| discriminate].
    apply Z.eqb_eq in E. injection Hrow as <-.
    exists i, r, t, borrower. repeat split; assumption.
  - intros (i & r & t & borrower & Hr & Ht & Ho & Hb & ->).
    exists (i, r). split; [apply elem_of_map_to_list, Hr |].
    simpl. rewrite Ht. simpl. rewrite Hb. simpl.
    apply Z.eqb_eq in Ho. rewrite Ho. reflexivity.
Qed.

(** X22.  The activity report of a user is the rows of what the user
    borrowed together with the rows of what the user lent, none lost and
    none added, in the order of falling activity date: a row never comes
    before a row with a later date.  A borrowed row names the owner of
    the tool as partner, a lent row names the borrower, and both carry
    the start and the status of their reservation. *)
Theorem activity_report_sorted db uid :
  get_user_activity_report db uid ≡ₚ borrowed_rows db uid ++ lent_rows db uid
  /\ (forall i j x y,
        (i < j)%nat ->
        get_user_activity_report db uid !! i = Some x ->
        get_user_activity_report db uid !! j = Some y ->
        activity_date y <= activity_date x)
  /\ (forall row,
        row ∈ get_user_activity_report db uid
        <-> (exists i r t owner,
               reservations db !! i = Some r /\ borrower_id r = uid
               /\ tools db !! tool_id r = Some t
               /\ users db !! owner_id t = Some owner
               /\ row = {| activity_type := "borrowed"; ar_tool_name := name t;
                           partner_name := username owner;
                           activity_date := start_date r;
                           ar_status := status r |})
            \/ (exists i r t borrower,
                  reservations db !! i = Some r
                  /\ tools db !! tool_id r = Some t /\ owner_id t = uid
                  /\ users db !! borrower_id r = Some borrower
                  /\ row = {| activity_type := "lent"; ar_tool_name := name t;
                              partner_name := username borrower;
                              activity_date := start_date r;
                              ar_status := status r |})).
Proof.
  unfold get_user_activity_report. split; [apply merge_sort_Permutation |].
  split.
  - apply (StronglySorted_lookup date_desc).
    apply (@StronglySorted_merge_sort _ date_desc _ date_desc_trans date_desc_total).
  - intros row.
    rewrite merge_sort_Permutation, elem_of_app, borrowed_rows_elem, lent_rows_elem.
    reflexivity.
Qed.

(** ** Bind parameters (database.py) *)

Lemma param_name_inj i j : Database.param_name i = Database.param_name j -> i = j.
Proof.
  unfold Database.param_name. intros E. simpl in E. injection E as E.
  exact (inj pretty i j E).
Qed.

Lemma params_snoc {A} (l : list A) x :
  Database.params (l ++ [x])
  = <[Database.param_name (length l) := x]> (Database.params l).
Proof.
  unfold Database.params. rewrite imap_app, fold_left_app. simpl.
  rewrite Nat.add_0_r. reflexivity.
Qed.

Lemma params_lookup {A} (l : list A) i :
  Database.params l !! Database.param_name i = l !! i.
Proof.
  induction l as [| x l IH] using rev_ind.
  - unfold Database.params. simpl. rewrite lookup_empty, lookup_nil. reflexivity.
  - rewrite params_snoc. destruct (decide (i = length l)) as [-> | Hne].
    + rewrite lookup_insert_eq. symmetry. apply list_lookup_middle. reflexivity.
    + rewrite lookup_insert_ne by (intros E; apply param_name_inj in E; congruence).
      rewrite IH. destruct (decide (i < length l)%nat) as [Hlt | Hge].
      * rewrite lookup_app_l by assumption. reflexivity.
      * rewrite (lookup_ge_None_2 l i) by lia.
        symmetry. apply lookup_ge_None_2. rewrite length_app. simpl. lia.
Qed.

Lemma params_keys {A} (l : list A) k :
  is_Some (Database.params l !! k)
  <-> exists i, (i < length l)%nat /\ k = Database.param_name i.
Proof.
  split.
  - induction l as [| x l IH] using rev_ind.
    + unfold Database.params. simpl. rewrite lookup_empty. intros [y Hy]. discriminate.
    + rewrite params_snoc, length_app. simpl.
      destruct (decide (Database.param_name (length l) = k)) as [<- | Hne].
      * intros _. exists (length l). split; [lia | reflexivity].
      * rewrite lookup_insert_ne by assumption. intros Hs.
        destruct (IH Hs) as (i & Hi & ->). exists i. split; [lia | reflexivity].
  - intros (i & Hi & ->). rewrite params_lookup. apply lookup_lt_is_Some_2, Hi.
Qed.

Lemma params_size {A} (l : list A) : size (Database.params l) = length l.
Proof.
  induction l as [| x l IH] using rev_ind.
  - unfold Database.params. simpl. apply map_size_empty.
  - rewrite params_snoc, length_app. simpl.
    rewrite map_size_insert_None; [lia |].
    rewrite params_lookup. apply lookup_ge_None_2. lia.
Qed.

(** X23.  [execute_function] and [call_procedure] bind every argument
    and nothing else: the dictionary has one entry per argument, the
    name [p] followed by the position is bound to the argument at that
    position, and no other name is bound, so the placeholders of the
    query (a colon before each of these names) all have a value.  With
    no argument the query has an empty parameter list and the dictionary
    is empty. *)
Theorem params_bind_every_argument {A} (args : list A) :
  (forall i, Database.params args !! Database.param_name i = args !! i)
  /\ size (Database.params args) = length args
  /\ (forall k, is_Some (Database.params args !! k)
                <-> exists i, (i < length args)%nat /\ k = Database.param_name i)
  /\ (forall i, Database.placeholder i = ":" +:+ Database.param_name i)
  /\ (forall f, Database.execute_function f ([] : list A)
                = ("SELECT * FROM " +:+ f +:+ "()", ∅))
  /\ (forall f, Database.call_procedure f ([] : list A) = ("CALL " +:+ f +:+ "()", ∅))
  /\ fst (Database.execute_function "check_tool_availability" [1; 10; 20])
     = "SELECT * FROM check_tool_availability(:p0, :p1, :p2)"
  /\ Database.param_name 10 = "p10".
Proof.
  split; [intros i; apply params_lookup |].
  split; [apply params_size |].
  split; [intros k; apply params_keys |].
  repeat split.
Qed.

(** ** The ledger once more *)

Lemma trigger_returned_not_owner db nid NEW new :
  fn_prevent_double_booking db nid NEW = ReturnNew new ->
  sql_eq_nullable (owner_id <$> tools db !! tool_id NEW) (borrower_id NEW) = false.
Proof.
  unfold fn_prevent_double_booking.
  destruct (sql_eq_nullable _ _); [discriminate | reflexivity].
Qed.

Lemma add_reservation_db_cases S req t a b now db :
  snd (add_reservation S req t a b now db) = db
  \/ snd (add_reservation S req t a b now db) = snd (nextval_reservation db)
  \/ exists user,
       get_current_user S req = Some user
       /\ owns db t user = false
       /\ fst (add_reservation S req t a b now db) = ReservationCreated
       /\ snd (add_reservation S req t a b now db)
          = set_reservations
              (<[reservation_seq db := new_row user t a b now]> (reservations db))
              (snd (nextval_reservation db)).
Proof.
  unfold add_reservation.
  destruct (get_current_user S req) as [user|]; [| left; reflexivity].
  fold (new_row user t a b now).
  unfold insert_reservation, run_trigger. simpl.
  destruct (fn_prevent_double_booking _ _ _) as [msg | new] eqn:E.
  - right. left.
    destruct (PyStr.contains _ _); [reflexivity |].
    destruct (PyStr.contains _ _); reflexivity.
  - right. right. exists user. split; [reflexivity |].
    pose proof (trigger_returned_not_owner _ _ _ _ E) as Ho.
    apply trigger_returned in E. destruct E as [-> _].
    repeat split. exact Ho.
Qed.

Lemma update_tool_owner_id S req t n d c st db j :
  owner_id <$> tools (snd (update_tool S req t n d c st db)) !! j
  = owner_id <$> tools db !! j.
Proof.
  unfold update_tool.
  destruct (get_current_user S req) as [user|]; [| reflexivity].
  destruct (tools db !! t) as [tool|] eqn:Ht; [| reflexivity].
  destruct (_ || _); [| reflexivity]. simpl.
  destruct (decide (t = j)) as [<- | Hne].
  - rewrite lookup_insert_eq, Ht. reflexivity.
  - rewrite lookup_insert_ne by assumption. reflexivity.
Qed.

Lemma update_tool_reservations S req t n d c st db :
  reservations (snd (update_tool S req t n d c st db)) = reservations db.
Proof.
  unfold update_tool.
  destruct (get_current_user S req) as [user|]; [| reflexivity].
  destruct (tools db !! t) as [tool|]; [| reflexivity].
  destruct (_ || _); reflexivity.
Qed.

(** X24.  The routes keep the ledger free of self-bookings: if no
    reservation is held by the owner of its tool, then none is after any
    of the three core operations, after [update_tool], [delete_tool],
    [add_rating], [register] or [admin_delete_user], and none is after
    [add_tool] provided no reservation refers to the key the new tool is
    stored under (the trigger lets a request for a tool that is not in
    the table through, so without that a tool could be listed under a
    key its lister has already booked). *)
Theorem no_self_booking_preserved db :
  no_self_booking db ->
  (forall op, no_self_booking (snd (run_core_op op db)))
  /\ (forall S req t n d c st, no_self_booking (snd (update_tool S req t n d c st db)))
  /\ (forall S req t, no_self_booking (snd (delete_tool S req t db)))
  /\ (forall S req n d c id st,
        (forall i r, reservations db !! i = Some r -> tool_id r <> id) ->
        no_self_booking (snd (add_tool S req n d c id st db)))
  /\ (forall S req rid ruid sc cm,
        no_self_booking (snd (add_rating S req rid ruid sc cm db)))
  /\ (forall n e pw id ts, no_self_booking (snd (register n e pw id ts db)))
  /\ (forall S req uid, no_self_booking (snd (admin_delete_user S req uid db))).
Proof.
  intros Hinv. split; [| split; [| split; [| split; [| split; [| split]]]]].
  - intros [S req t a b now | S req rid st now | S req rid]; simpl.
    + destruct (add_reservation_db_cases S req t a b now db)
        as [-> | [-> | (user & _ & Ho & _ & ->)]]; try exact Hinv.
      intros i r tool Hi Ht. simpl in Hi, Ht.
      apply lookup_insert_Some in Hi. destruct Hi as [[_ <-] | [_ Hi]].
      * simpl in *. unfold owns in Ho. rewrite Ht in Ho. simpl in Ho.
        apply Z.eqb_neq in Ho. exact Ho.
      * exact (Hinv i r tool Hi Ht).
    + unfold update_reservation_status.
      destruct (get_current_user S req) as [user|]; [| exact Hinv].
      pose proof (update_reservation_cases db rid st (s_user_id user)
                    (is_admin_role user) now) as Hc.
      destruct (update_reservation _ _ _ _ _ _) as [msg | db']; [exact Hinv |].
      destruct Hc as [-> | (r0 & Hr0 & _ & -> & _)]; [exact Hinv |].
      intros i r tool Hi Ht. simpl in Hi, Ht.
      apply lookup_insert_Some in Hi. destruct Hi as [[_ <-] | [_ Hi]].
      * simpl in *. exact (Hinv rid r0 tool Hr0 Ht).
      * exact (Hinv i r tool Hi Ht).
    + unfold delete_reservation.
      destruct (get_current_user S req) as [user|]; [| exact Hinv].
      simpl.
      destruct (delete_reservation_row_cases db rid (s_user_id user)
                  (is_admin_role user)) as [-> | ->]; [exact Hinv |].
      intros i r tool Hi Ht. simpl in Hi, Ht.
      apply lookup_delete_Some in Hi. destruct Hi as [_ Hi].
      exact (Hinv i r tool Hi Ht).
  - intros S req t n d c st i r tool Hi Ht.
    rewrite update_tool_reservations in Hi.
    pose proof (update_tool_owner_id S req t n d c st db (tool_id r)) as Ho.
    rewrite Ht in Ho. simpl in Ho.
    destruct (tools db !! tool_id r) as [tool0|] eqn:Ht0; [| discriminate].
    simpl in Ho. injection Ho as Ho. rewrite Ho. exact (Hinv i r tool0 Hi Ht0).
  - intros S req t i r tool Hi Ht. revert Hi Ht. unfold delete_tool.
    destruct (get_current_user S req) as [user|]; [| apply Hinv].
    destruct (owner_id <$> tools db !! t) as [result|]; [| apply Hinv].
    destruct (negb _ && negb _); [apply Hinv |].
    simpl. intros Hi Ht. apply lookup_delete_Some in Ht. destruct Ht as [_ Ht].
    exact (Hinv i r tool Hi Ht).
  - intros S req n d c id st Hfree i r tool. unfold add_tool.
    destruct (get_current_user S req) as [user|]; [| apply Hinv].
    destruct (tools db !! id) as [t0|]; [apply Hinv |].
    simpl. intros Hi Ht.
    rewrite lookup_insert_ne in Ht by (intros E; apply (Hfree i r Hi); congruence).
    exact (Hinv i r tool Hi Ht).
  - intros S req rid ruid sc cm i r tool. unfold add_rating.
    destruct (get_current_user S req) as [user|]; [| apply Hinv].
    unfold insert_rating. simpl.
    destruct (negb _); [apply Hinv |].
    destruct (chk_rating_score _); apply Hinv.
  - intros n e pw id ts i r tool.
    destruct (register_cases n e pw id ts db) as [[_ ->] | [_ ->]]; apply Hinv.
  - intros S req uid i r tool. unfold admin_delete_user.
    destruct (get_current_user S req) as [user|]; [| apply Hinv].
    destruct (negb _); [apply Hinv |].
    destruct (uid =? s_user_id user); apply Hinv.
Qed.

Lemma no_self_booking_preserved_witness :
  no_self_booking Ex.db_A
  /\ no_self_booking
       (snd (add_tool Ex.sessions Ex.as_bob "saw" "a hand saw" "hand tools"
                      2 "available" Ex.db0)).
Proof.
  assert (H0 : no_self_booking Ex.db0)
    by (intros i r t Hi; vm_compute in Hi; discriminate).
  split.
  - apply (proj1 (no_self_booking_preserved Ex.db0 H0)
             (CreateReservation Ex.sessions Ex.as_bob 1 1 5 100)).
  - apply (proj1 (proj2 (proj2 (proj2 (no_self_booking_preserved Ex.db0 H0))))).
    intros i r Hi. vm_compute in Hi. discriminate.
Defined.

(** X25.  [add_reservation] never changes what is there: the user, tool
    and rating tables are as before, and in a state whose keys lie below
    the sequence every reservation row of before is still in the table,
    unchanged; the table grows by one row when the answer is
    reservation-created and keeps its size otherwise. *)
Theorem add_reservation_keeps_rows S req t a b now db :
  seq_fresh db ->
  users (snd (add_reservation S req t a b now db)) = users db
  /\ tools (snd (add_reservation S req t a b now db)) = tools db
  /\ ratings (snd (add_reservation S req t a b now db)) = ratings db
  /\ (forall j r, reservations db !! j = Some r ->
        reservations (snd (add_reservation S req t a b now db)) !! j = Some r)
  /\ (fst (add_reservation S req t a b now db) = ReservationCreated ->
      size (reservations (snd (add_reservation S req t a b now db)))
      = Datatypes.S (size (reservations db)))
  /\ (fst (add_reservation S req t a b now db) <> ReservationCreated ->
      reservations (snd (add_reservation S req t a b now db)) = reservations db).
Proof.
  intros Hf.
  destruct (add_reservation_db_cases S req t a b now db)
    as [E | [E | (user & _ & _ & Hc & E)]].
  - rewrite E. repeat split; auto.
    intros Hc. destruct (add_reservation_created_row S req t a b now db Hc)
      as (user & _ & E').
    rewrite E in E'. apply (f_equal reservation_seq) in E'. simpl in E'. lia.
  - rewrite E. repeat split; auto.
    intros Hc. destruct (add_reservation_created_row S req t a b now db Hc)
      as (user & _ & E').
    rewrite E in E'. apply (f_equal reservations) in E'. simpl in E'.
    assert (Hl : reservations db !! reservation_seq db
                 = Some (new_row user t a b now)).
    { rewrite E' at 1. apply lookup_insert_eq. }
    rewrite (Hf (reservation_seq db)) in Hl by lia. discriminate.
  - rewrite E, Hc. simpl. repeat split.
    + intros j r Hj. rewrite lookup_insert_ne; [exact Hj |].
      intros <-. rewrite (Hf (reservation_seq db)) in Hj by lia. discriminate.
    + intros _. apply map_size_insert_None, Hf. lia.
    + intros Hne. destruct Hne. reflexivity.
Qed.

Lemma add_reservation_keeps_rows_witness :
  reservations (snd (add_reservation Ex.sessions Ex.as_bob 1 5 10 101 Ex.db_A)) !! 1
  = Some (new_row Ex.bob_session 1 1 5 100).
Proof.
  destruct (add_reservation_keeps_rows Ex.sessions Ex.as_bob 1 5 10 101 Ex.db_A)
    as (_ & _ & _ & H & _).
  - apply seq_freshb_sound. reflexivity.
  - apply H. reflexivity.
Defined.

(** X26.  For well-formed intervals the strict test of fix_overlap.py
    says that the two half-open intervals share an instant, and is
    symmetric; the test of migrate_db.py says that they share an instant
    or one ends where the other starts. *)
Theorem overlap_tests_meaning s1 e1 s2 e2 :
  s1 < e1 -> s2 < e2 ->
  (overlaps s1 e1 s2 e2 = true <-> exists x, (s1 <= x < e1) /\ (s2 <= x < e2))
  /\ overlaps s1 e1 s2 e2 = overlaps s2 e2 s1 e1
  /\ (overlaps_migrate s1 e1 s2 e2 = true
      <-> (exists x, (s1 <= x < e1) /\ (s2 <= x < e2)) \/ e1 = s2 \/ e2 = s1).
Proof.
  intros H1 H2.
  split; [apply overlaps_share_instant; assumption |].
  split; [apply overlaps_sym |].
  unfold overlaps_migrate. rewrite andb_true_iff, Z.leb_le, Z.geb_le. split.
  - intros [Ha Hb].
    destruct (Z.eq_dec e1 s2) as [| Hn1]; [right; left; assumption |].
    destruct (Z.eq_dec e2 s1) as [| Hn2]; [right; right; assumption |].
    left. exists (Z.max s1 s2). lia.
  - intros [(x & Hx1 & Hx2) | [E | E]]; lia.
Qed.

Lemma overlap_tests_meaning_witness :
  overlaps 1 5 5 10 = overlaps 5 10 1 5
  /\ (overlaps_migrate 1 5 5 10 = true
      <-> (exists x, (1 <= x < 5) /\ (5 <= x < 10)) \/ 5 = 5 \/ 10 = 1).
Proof.
  apply (overlap_tests_meaning 1 5 5 10); lia.
Defined.

(** X27.  The availability check of fix_overlap.py foretells the route:
    for a logged-in user who does not own the tool, in a state whose
    keys lie below the sequence, [check_tool_availability] answers true
    exactly when [add_reservation] creates the reservation, and false
    exactly when it answers with the booking conflict. *)
Theorem availability_check_foretells_route S req t a b now db user :
  get_current_user S req = Some user ->
  seq_fresh db ->
  owns db t user = false ->
  (check_tool_availability (reservations db) t a b = true
   <-> fst (add_reservation S req t a b now db) = ReservationCreated)
  /\ (check_tool_availability (reservations db) t a b = false
      <-> fst (add_reservation S req t a b now db) = BookingConflictError).
Proof.
  intros Hu Hf Ho.
  destruct (check_tool_availability (reservations db) t a b) eqn:E.
  - apply check_tool_availability_spec in E.
    destruct (add_reservation_no_conflict S req t a b now db user Hu Hf Ho E)
      as [-> _].
    split; split; intros; try reflexivity; discriminate.
  - apply check_tool_availability_false in E.
    rewrite (add_reservation_has_conflict S req t a b now db user Hu Hf Ho E).
    split; split; intros; try reflexivity; discriminate.
Qed.

Lemma availability_check_foretells_route_witness :
  (check_tool_availability (reservations Ex.db_A) 1 4 6 = false
   <-> fst (add_reservation Ex.sessions Ex.as_bob 1 4 6 102 Ex.db_A)
       = BookingConflictError).
Proof.
  apply (availability_check_foretells_route Ex.sessions Ex.as_bob 1 4 6 102 Ex.db_A
           Ex.bob_session).
  - reflexivity.
  - apply seq_freshb_sound. reflexivity.
  - reflexivity.
Defined.
